(** * The [google_compute_usable_subnetworks] data source and the
      GKE backup-plan example template

    A shallow embedding of
    [mmv1/third_party/terraform/data_sources/data_source_google_compute_usable_subnetworks.go]
    and of [mmv1/templates/terraform/examples/gkebackup_backupplan_full.tf.erb],
    with the properties their specification states. *)

From stdpp Require Import base option list strings gmap fin_maps.
From Stdlib Require Import Ascii Lia.

Set Default Proof Using "Type".
Set Warnings "-register-all".
Open Scope string_scope.

(** ** Go slices

    A Go slice is either [nil] or a (possibly empty) backing sequence.  The
    two are told apart by [== nil] and by [reflect.DeepEqual], while [len],
    [range] and [append] treat them alike. *)
Module Slice.

Inductive t (A : Type) : Type :=
| Nil
| Of (elts : list A).
Arguments Nil {A}.
Arguments Of {A} elts.

(** The elements a [for _, x := range s] loop visits, in order. *)
Definition elems {A} (s : t A) : list A :=
  match s with
  | Nil => []
  | Of l => l
  end.

Definition is_nil {A} (s : t A) : bool :=
  match s with
  | Nil => true
  | Of _ => false
  end.

Definition len {A} (s : t A) : nat := length (elems s).

(** [make([]T, 0)] *)
Definition make0 {A} : t A := Of [].

(** [append(s, x)] *)
Definition append {A} (s : t A) (x : A) : t A := Of (elems s ++ [x]).

Definition map {A B} (f : A -> B) (s : t A) : t B :=
  match s with
  | Nil => Nil
  | Of l => Of (List.map f l)
  end.

End Slice.

(** ** Values of type [interface{}] that the reshaping functions build *)
Inductive Value : Type :=
| VString (s : string)
| VList (l : Slice.t Value)
| VMap (m : gmap string Value).

(** [map[string]interface{}] *)
Abbreviation TfMap := (gmap string Value).

(** ** The API structs read by the data source

    [compute.UsableSubnetworkSecondaryRange] and [compute.UsableSubnetwork]
    are declared by the Compute API client; the fields are the ones the
    source reads. *)
Record UsableSubnetworkSecondaryRange : Type := {
  RangeName : string;
  SecIpCidrRange : string
}.

Record UsableSubnetwork : Type := {
  ExternalIpv6Prefix : string;
  InternalIpv6Prefix : string;
  IpCidrRange : string;
  Ipv6AccessType : string;
  Network : string;
  Purpose : string;
  Role : string;
  SecondaryIpRanges : Slice.t UsableSubnetworkSecondaryRange;
  StackType : string;
  Subnetwork : string
}.

(** One page of the [Subnetworks.ListUsable] response. *)
Record UsableSubnetworksAggregatedList : Type := {
  Items : Slice.t UsableSubnetwork;
  NextPageToken : string
}.

(** ** Reshaping (source lines 167-198) *)

Definition generateTfSecondaryIpRange (secondaryIpRange : UsableSubnetworkSecondaryRange) : TfMap :=
  <["range_name" := VString (RangeName secondaryIpRange)]>
  (<["ip_cidr_range" := VString (SecIpCidrRange secondaryIpRange)]> ∅).

Definition generateTfSecondaryIpRanges (secondaryIpRanges : Slice.t UsableSubnetworkSecondaryRange) : Slice.t TfMap :=
  let allSecondaryIpRanges := Slice.make0 in
  fold_left
    (fun allSecondaryIpRanges secIpRange =>
       Slice.append allSecondaryIpRanges (generateTfSecondaryIpRange secIpRange))
    (Slice.elems secondaryIpRanges)
    allSecondaryIpRanges.

Definition generateTfSubnetwork (usableSubnetwork : UsableSubnetwork) : TfMap :=
  <["subnetwork" := VString (Subnetwork usableSubnetwork)]>
  (<["network" := VString (Network usableSubnetwork)]>
  (<["ip_cidr_range" := VString (IpCidrRange usableSubnetwork)]>
  (<["secondary_ip_ranges" :=
       VList (Slice.map VMap (generateTfSecondaryIpRanges (SecondaryIpRanges usableSubnetwork)))]>
  (<["stack_type" := VString (StackType usableSubnetwork)]>
  (<["ipv6_access_type" := VString (Ipv6AccessType usableSubnetwork)]>
  (<["purpose" := VString (Purpose usableSubnetwork)]>
  (<["role" := VString (Role usableSubnetwork)]>
  (<["external_ipv6_prefix" := VString (ExternalIpv6Prefix usableSubnetwork)]>
  (<["internal_ipv6_prefix" := VString (InternalIpv6Prefix usableSubnetwork)]> ∅))))))))).

(** ** Errors and diagnostics

    A Go [error] is observed only through its message ([err.Error()]).
    [fmt.Errorf(format, err)] with a [%s] verb splices that message into the
    format. *)
Record error : Type := errorString { Error : string }.

Definition Errorf (pre : string) (err : error) : error :=
  errorString (pre +:+ Error err).

Inductive Severity : Type := SeverityError | SeverityWarning.

Record Diagnostic : Type := {
  DiagSeverity : Severity;
  Summary : string;
  Detail : string
}.

Abbreviation Diagnostics := (list Diagnostic).

(** [diag.FromErr] on a non-nil error. *)
Definition FromErr (err : error) : Diagnostics :=
  [ {| DiagSeverity := SeverityError; Summary := Error err; Detail := "" |} ].

Definition HasError (diags : Diagnostics) : bool :=
  existsb (fun dg => match DiagSeverity dg with SeverityError => true | SeverityWarning => false end) diags.

(** ** [schema.ResourceData]

    The schema of the data source (source lines 16-123) declares two
    [TypeString] attributes, ["filter"] and ["project"], and one [TypeList]
    attribute, ["subnetworks"].  The SDK reads and writes an attribute
    according to its schema type, so the store keeps primitive attributes as
    strings and composite ones as values; an attribute that is absent has no
    entry.  The resource ID lives beside them. *)
Record ResourceData : Type := {
  Attributes : gmap string string;
  Composite : gmap string Value;
  Id : string
}.

(** [d.GetOk(key)] on a [TypeString] attribute: the value, and whether the
    key "has been set to a non-zero value".  An attribute set to the empty
    string is reported as not ok, like one that is absent. *)
Definition GetOk (d : ResourceData) (key : string) : string * bool :=
  match Attributes d !! key with
  | Some v => (v, if decide (v = "") then false else true)
  | None => ("", false)
  end.

(** What [d.Set] stores once the field writer has accepted the value. *)
Definition writeField (d : ResourceData) (key : string) (value : Value) : ResourceData :=
  match value with
  | VString s =>
      {| Attributes := <[key := s]> (Attributes d); Composite := Composite d; Id := Id d |}
  | _ =>
      {| Attributes := Attributes d; Composite := <[key := value]> (Composite d); Id := Id d |}
  end.

(** [d.SetId(v)] *)
Definition SetId (d : ResourceData) (v : string) : ResourceData :=
  {| Attributes := Attributes d; Composite := Composite d; Id := v |}.

(** ** The Compute client: [Subnetworks.ListUsable] and its pager *)

(** One HTTP request of the list call, as the server sees it. *)
Record Request : Type := {
  reqUserAgent : string;
  reqProject : string;
  reqParams : gmap string string
}.

(** [compute.Service]: the user agent it was created with and the transport
    that answers a request with a page or with an error. *)
Record Service : Type := {
  UserAgent : string;
  roundTrip : Request -> error + UsableSubnetworksAggregatedList
}.

Record SubnetworksListUsableCall : Type := {
  s : Service;
  project : string;
  urlParams_ : gmap string string
}.

Definition ListUsable (svc : Service) (project : string) : SubnetworksListUsableCall :=
  {| s := svc; project := project; urlParams_ := ∅ |}.

Definition Filter (c : SubnetworksListUsableCall) (filter : string) : SubnetworksListUsableCall :=
  {| s := s c; project := project c; urlParams_ := <["filter" := filter]> (urlParams_ c) |}.

Definition PageToken (c : SubnetworksListUsableCall) (pageToken : string) : SubnetworksListUsableCall :=
  {| s := s c; project := project c; urlParams_ := <["pageToken" := pageToken]> (urlParams_ c) |}.

Definition requestOf (c : SubnetworksListUsableCall) : Request :=
  {| reqUserAgent := UserAgent (s c); reqProject := project c; reqParams := urlParams_ c |}.

Definition Do (c : SubnetworksListUsableCall) : error + UsableSubnetworksAggregatedList :=
  roundTrip (s c) (requestOf c).

(** [c.Pages(ctx, f)]: call [Do], hand the page to [f], and continue with the
    page's [NextPageToken] until it is empty or an error occurs.  (On return
    the library puts the call's page token back; the read does not use the
    call again.)  The callback works on the variables it captured, here the
    state [St]; the result is the requests performed, the final state of the
    captured variables and the error, if any.  The loop need not end: [None]
    is a run that outlasts [fuel] requests. *)
Fixpoint Pages {St : Type} (fuel : nat) (c : SubnetworksListUsableCall)
    (f : UsableSubnetworksAggregatedList -> St -> St * option error) (st : St)
    : option (list Request * St * option error) :=
  match fuel with
  | O => None
  | S fuel' =>
      match Do c with
      | inl err => Some ([requestOf c], st, Some err)
      | inr x =>
          match f x st with
          | (st', Some err) => Some ([requestOf c], st', Some err)
          | (st', None) =>
              if decide (NextPageToken x = "") then Some ([requestOf c], st', None)
              else
                match Pages fuel' (PageToken c (NextPageToken x)) f st' with
                | Some (sent, st'', r) => Some (requestOf c :: sent, st'', r)
                | None => None
                end
          end
      end
  end.

(** The pages a call is answered with, and how the exchange ends: with an
    error, or with a page that carries no further token. *)
Inductive PageRun : SubnetworksListUsableCall -> list UsableSubnetworksAggregatedList -> option error -> Prop :=
| PageRun_fail c err :
    Do c = inl err -> PageRun c [] (Some err)
| PageRun_last c x :
    Do c = inr x -> NextPageToken x = "" -> PageRun c [x] None
| PageRun_next c x xs r :
    Do c = inr x -> NextPageToken x <> "" ->
    PageRun (PageToken c (NextPageToken x)) xs r ->
    PageRun c (x :: xs) r.

(** The requests of such an exchange: one per page delivered, each carrying
    the token of the page before it, and one more for the request that
    failed. *)
Fixpoint pageRequests (c : SubnetworksListUsableCall) (pages : list UsableSubnetworksAggregatedList)
    : list Request :=
  match pages with
  | [] => []
  | x :: pages' => requestOf c :: pageRequests (PageToken c (NextPageToken x)) pages'
  end.

Definition callAfter (c : SubnetworksListUsableCall) (pages : list UsableSubnetworksAggregatedList)
    : SubnetworksListUsableCall :=
  fold_left (fun c x => PageToken c (NextPageToken x)) pages c.

Definition runRequests (c : SubnetworksListUsableCall) (pages : list UsableSubnetworksAggregatedList)
    (r : option error) : list Request :=
  match r with
  | None => pageRequests c pages
  | Some _ => pageRequests c pages ++ [requestOf (callAfter c pages)]
  end.

(** Paging changes the page token and nothing else of a request. *)
Definition sameButToken (c : SubnetworksListUsableCall) (q : Request) : Prop :=
  reqUserAgent q = UserAgent (s c)
  /\ reqProject q = project c
  /\ forall key, key <> "pageToken" -> reqParams q !! key = urlParams_ c !! key.

(** ** Provider configuration *)
Record Config : Type := {
  userAgent : string;
  NewComputeClient : string -> Service
}.

(** ** The synthetic ID (source lines 200-206) *)
Definition computeUsableSubnetworksListId (project : string) (d : ResourceData) : string :=
  let filter := "ALL" in
  let filter :=
    let '(subfilter, ok) := GetOk d "filter" in
    if ok then subfilter else filter in
  project +:+ "-" +:+ filter.

(** ** The read operation (source lines 127-165)

    [generateUserAgentString] and [getProject] are helpers of the provider
    that live in other files, and whether the SDK's field writer accepts a
    value is decided by the SDK; the read is stated over all three.  The
    [context.Context] argument is only passed through to the pager and is
    left out. *)
Section Read.

Variable generateUserAgentString : ResourceData -> string -> error + string.
Variable getProject : ResourceData -> Config -> error + string.
Variable writeFieldError : string -> Value -> option error.

(** [d.Set(key, value)]: on a writer error nothing is stored. *)
Definition d_Set (d : ResourceData) (key : string) (value : Value) : error + ResourceData :=
  match writeFieldError key value with
  | Some err => inl err
  | None => inr (writeField d key value)
  end.

(** The request of lines 141-144, before paging starts. *)
Definition listUsableRequest (d : ResourceData) (config : Config) (userAgent project : string)
    : SubnetworksListUsableCall :=
  let req := ListUsable (NewComputeClient config userAgent) project in
  let '(filter, ok) := GetOk d "filter" in
  if ok then Filter req filter else req.

(** The callback of lines 145-150: append every item of the page, reshaped,
    to the captured [allUsableSubnetworks]; it never fails. *)
Definition collectPage (subnetworks : UsableSubnetworksAggregatedList)
    (allUsableSubnetworks : Slice.t TfMap) : Slice.t TfMap * option error :=
  (fold_left
     (fun allUsableSubnetworks item =>
        Slice.append allUsableSubnetworks (generateTfSubnetwork item))
     (Slice.elems (Items subnetworks))
     allUsableSubnetworks,
   None).

(** The result is the returned diagnostics, the resource data as the read
    leaves it, and the requests it sent. *)
Definition dataSourceGoogleComputeUsableSubnetworksRead
    (fuel : nat) (d : ResourceData) (meta : Config)
    : option (Diagnostics * ResourceData * list Request) :=
  let config := meta in
  match generateUserAgentString d (userAgent config) with
  | inl err => Some (FromErr err, d, [])
  | inr userAgent =>
      match getProject d config with
      | inl err => Some (FromErr err, d, [])
      | inr project =>
          let allUsableSubnetworks := Slice.make0 in
          let req := listUsableRequest d config userAgent project in
          match Pages fuel req collectPage allUsableSubnetworks with
          | None => None
          | Some (sent, _, Some err) => Some (FromErr err, d, sent)
          | Some (sent, allUsableSubnetworks, None) =>
              match d_Set d "subnetworks" (VList (Slice.map VMap allUsableSubnetworks)) with
              | inl err => Some (FromErr (Errorf "error setting subnetworks: " err), d, sent)
              | inr d1 =>
                  match d_Set d1 "project" (VString project) with
                  | inl err => Some (FromErr (Errorf "error setting project: " err), d1, sent)
                  | inr d2 =>
                      Some ([], SetId d2 (computeUsableSubnetworksListId project d2), sent)
                  end
              end
          end
      end
  end.

End Read.

(** ** Recovering a struct from its schema map

    The inverse direction is not part of the source; it is defined here to
    state the round trip. *)
Definition lookupString (m : TfMap) (key : string) : option string :=
  match m !! key with
  | Some (VString v) => Some v
  | _ => None
  end.

Definition recoverSecondaryIpRange (v : Value) : option UsableSubnetworkSecondaryRange :=
  match v with
  | VMap m =>
      rangeName ← lookupString m "range_name";
      ipCidrRange ← lookupString m "ip_cidr_range";
      Some {| RangeName := rangeName; SecIpCidrRange := ipCidrRange |}
  | _ => None
  end.

Definition recoverSecondaryIpRanges (v : Value) : option (Slice.t UsableSubnetworkSecondaryRange) :=
  match v with
  | VList Slice.Nil => Some Slice.Nil
  | VList (Slice.Of l) => Slice.Of <$> mapM recoverSecondaryIpRange l
  | _ => None
  end.

Definition recoverSubnetwork (m : TfMap) : option UsableSubnetwork :=
  subnetwork ← lookupString m "subnetwork";
  network ← lookupString m "network";
  ipCidrRange ← lookupString m "ip_cidr_range";
  secondaryIpRanges ← m !! "secondary_ip_ranges" ≫= recoverSecondaryIpRanges;
  stackType ← lookupString m "stack_type";
  ipv6AccessType ← lookupString m "ipv6_access_type";
  purpose ← lookupString m "purpose";
  role ← lookupString m "role";
  externalIpv6Prefix ← lookupString m "external_ipv6_prefix";
  internalIpv6Prefix ← lookupString m "internal_ipv6_prefix";
  Some {| ExternalIpv6Prefix := externalIpv6Prefix;
          InternalIpv6Prefix := internalIpv6Prefix;
          IpCidrRange := ipCidrRange;
          Ipv6AccessType := ipv6AccessType;
          Network := network;
          Purpose := purpose;
          Role := role;
          SecondaryIpRanges := secondaryIpRanges;
          StackType := stackType;
          Subnetwork := subnetwork |}.

(** A struct with a nil [SecondaryIpRanges] replaced by the empty slice. *)
Definition withEmptyForNil (u : UsableSubnetwork) : UsableSubnetwork :=
  {| ExternalIpv6Prefix := ExternalIpv6Prefix u;
     InternalIpv6Prefix := InternalIpv6Prefix u;
     IpCidrRange := IpCidrRange u;
     Ipv6AccessType := Ipv6AccessType u;
     Network := Network u;
     Purpose := Purpose u;
     Role := Role u;
     SecondaryIpRanges := Slice.Of (Slice.elems (SecondaryIpRanges u));
     StackType := StackType u;
     Subnetwork := Subnetwork u |}.

(** The ten schema keys of a subnetwork entry (source lines 22-84). *)
Definition subnetworkKeys : gset string :=
  {[ "subnetwork"; "network"; "ip_cidr_range"; "secondary_ip_ranges"; "stack_type";
     "ipv6_access_type"; "purpose"; "role"; "external_ipv6_prefix"; "internal_ipv6_prefix" ]}.

(** ** The filter component of the ID, in the two readings *)

(** As the specification words it: the configured filter when one is set,
    ["ALL"] otherwise. *)
Definition filterOrALL_spec (d : ResourceData) : string :=
  match Attributes d !! "filter" with
  | Some f => f
  | None => "ALL"
  end.

(** As the optional lookup decides it: an empty filter counts as none. *)
Definition filterOrALL (d : ResourceData) : string :=
  match Attributes d !! "filter" with
  | Some f => if decide (f = "") then "ALL" else f
  | None => "ALL"
  end.

(** The [filter] query parameter, in the same two readings. *)
Definition filterParam_spec (d : ResourceData) : option string :=
  Attributes d !! "filter".

Definition filterParam (d : ResourceData) : option string :=
  match Attributes d !! "filter" with
  | Some f => if decide (f = "") then None else Some f
  | None => None
  end.

(** All items of a sequence of pages, page by page, each reshaped. *)
Definition reshapedItems (pages : list UsableSubnetworksAggregatedList) : list TfMap :=
  flat_map (fun page => List.map generateTfSubnetwork (Slice.elems (Items page))) pages.

(** ** The example template [gkebackup_backupplan_full.tf.erb] *)
Module Template.

(** The double quote and the line feed. *)
Definition dq : string := String (ascii_of_nat 34) EmptyString.
Definition nl : string := String (ascii_of_nat 10) EmptyString.

(** [q s] is [s] between double quotes. *)
Definition q (s : string) : string := dq +:+ s +:+ dq.

(** The template, line by line (source lines 1-42). *)
Definition lines : list string := [
  "resource " +:+ q "google_container_cluster" +:+ " " +:+ q "primary" +:+ " {";
  "  provider = google-beta";
  "  name               = " +:+ q "<%= ctx[:vars]['cluster_name'] %>";
  "  location           = " +:+ q "us-central1";
  "  initial_node_count = 1";
  "  workload_identity_config {";
  "    workload_pool = " +:+ q "<%= ctx[:test_env_vars]['project'] %>.svc.id.goog";
  "  }";
  "  addons_config {";
  "    gke_backup_agent_config {";
  "      enabled = true";
  "    }";
  "  }";
  "}";
  "";
  "resource " +:+ q "google_gke_backup_backup_plan" +:+ " " +:+ q "full" +:+ " {";
  "  provider = google-beta";
  "  name = " +:+ q "<%= ctx[:vars]['name'] %>";
  "  cluster = google_container_cluster.primary.id";
  "  location = " +:+ q "us-central1";
  "  retention_policy {";
  "    backup_delete_lock_days = 30";
  "    backup_retain_days = 180";
  "  }";
  "  backup_schedule {";
  "    cron_schedule = " +:+ q "0 9 * * 1";
  "  }";
  "  backup_config {";
  "    include_volume_data = true";
  "    include_secrets = true";
  "    selected_applications {";
  "      namespaced_names {";
  "        name = " +:+ q "app1";
  "        namespace = " +:+ q "ns1";
  "      }";
  "      namespaced_names {";
  "        name = " +:+ q "app2";
  "        namespace = " +:+ q "ns2";
  "      }";
  "    }";
  "  }";
  "}"
].

Fixpoint unlines (ls : list string) : string :=
  match ls with
  | [] => ""
  | [l] => l
  | l :: rest => l +:+ nl +:+ unlines rest
  end.

Definition template : string := unlines lines.

(** The generation context: the example's [vars] and the test environment
    variables, both hashes from names to strings. *)
Record Ctx : Type := {
  vars : gmap string string;
  test_env_vars : gmap string string
}.

Inductive Segment : Type :=
| Text (text : string)
| Output (code : string).

(** Modelled from the spec: the rendering step itself, which is not among the
    sources.  The spec describes it as "pure string interpolation of context
    variables into a fixed textual template": text outside [<%= ... %>] is
    copied, and each such tag is replaced by the value of the context lookup
    written in it.  Other directives are not covered ([None]). *)
Fixpoint scan (inTag : bool) (acc : string) (tpl : string) : option (list Segment) :=
  match tpl with
  | EmptyString => if inTag then None else Some [Text acc]
  | String c rest =>
      if inTag then
        match tpl with
        | String "%" (String ">" rest') => cons (Output acc) <$> scan false "" rest'
        | _ => scan true (acc +:+ String c "") rest
        end
      else
        match tpl with
        | String "<" (String "%" (String "=" rest')) => cons (Text acc) <$> scan true "" rest'
        | String "<" (String "%" _) => None
        | _ => scan false (acc +:+ String c "") rest
        end
  end.

Fixpoint dropSpaces (s : string) : string :=
  match s with
  | String " " rest => dropSpaces rest
  | _ => s
  end.

Fixpoint stripPrefix (p s : string) : option string :=
  match p, s with
  | EmptyString, _ => Some s
  | String a p', String b s' => if decide (a = b) then stripPrefix p' s' else None
  | String _ _, EmptyString => None
  end.

(** The text before the first occurrence of [stop], and the text after it. *)
Fixpoint splitAt (stop : ascii) (s : string) : option (string * string) :=
  match s with
  | EmptyString => None
  | String c rest =>
      if decide (c = stop) then Some ("", rest)
      else '(before, after) ← splitAt stop rest; Some (String c before, after)
  end.

(** Modelled from the spec: the value of a tag's code, a lookup
    [ctx[:hash]['key']] in the context; a key that is absent gives the empty
    text. *)
Definition evalOutput (ctx : Ctx) (code : string) : option string :=
  afterCtx ← stripPrefix "ctx[:" (dropSpaces code);
  '(hashName, afterHash) ← splitAt "]" afterCtx;
  afterOpen ← stripPrefix "['" afterHash;
  '(key, afterKey) ← splitAt "'" afterOpen;
  afterClose ← stripPrefix "]" afterKey;
  hash ← (if decide (hashName = "vars") then Some (vars ctx)
          else if decide (hashName = "test_env_vars") then Some (test_env_vars ctx)
          else None);
  if decide (dropSpaces afterClose = "") then Some (default "" (hash !! key)) else None.

Definition renderSegment (ctx : Ctx) (seg : Segment) : option string :=
  match seg with
  | Text text => Some text
  | Output code => evalOutput ctx code
  end.

Fixpoint concat (parts : list string) : string :=
  match parts with
  | [] => ""
  | part :: rest => part +:+ concat rest
  end.

(** Modelled from the spec: rendering a template in a context. *)
Definition render (tpl : string) (ctx : Ctx) : option string :=
  segments ← scan false "" tpl;
  concat <$> mapM (renderSegment ctx) segments.

(** The three tags of the template and the text around them. *)
Definition tagClusterName : string := "<%= ctx[:vars]['cluster_name'] %>".
Definition tagProject : string := "<%= ctx[:test_env_vars]['project'] %>".
Definition tagName : string := "<%= ctx[:vars]['name'] %>".

Definition textBeforeClusterName : string :=
  unlines (take 2 lines) +:+ nl +:+ "  name               = " +:+ dq.

Definition textBeforeProject : string :=
  dq +:+ nl +:+ unlines (take 3 (drop 3 lines)) +:+ nl +:+ "    workload_pool = " +:+ dq.

Definition textBeforeName : string :=
  ".svc.id.goog" +:+ dq +:+ nl +:+ unlines (take 10 (drop 7 lines)) +:+ nl +:+ "  name = " +:+ dq.

Definition textAfterName : string :=
  dq +:+ nl +:+ unlines (drop 18 lines).

(** The context of the spec's example. *)
Definition exampleCtx : Ctx :=
  {| vars := <["cluster_name" := "c1"]> (<["name" := "bp1"]> ∅);
     test_env_vars := <["project" := "proj"]> ∅ |}.

End Template.

(** ** The schema of the data source (source lines 12-125)

    [schema.Schema] with the fields the source sets; a field the source
    leaves out has Go's zero value.  [Elem] is the [Schema] map of the
    [&schema.Resource{...}] the source gives for a list. *)
Inductive ValueType : Type := TypeString | TypeList.

Inductive Schema : Type := mkSchema {
  Type_ : ValueType;
  Optional : bool;
  Computed : bool;
  Elem : option (gmap string Schema);
  Description : string
}.

Record Resource : Type := {
  ReadContext : nat -> ResourceData -> Config -> option (Diagnostics * ResourceData * list Request);
  Schema_ : gmap string Schema
}.

Definition dq : string := Template.dq.

(** The description of ["filter"] (source lines 92-113). *)
Definition filterDescription : string :=
  Template.unlines [
    "Filter sets the optional parameter " +:+ dq +:+ "filter" +:+ dq +:+ ": A filter expression that";
    "filters resources listed in the response. The expression must specify";
    "the field name, an operator, and the value that you want to use for";
    "filtering. The value must be a string, a number, or a boolean. The";
    "operator must be either " +:+ dq +:+ "=" +:+ dq +:+ ", " +:+ dq +:+ "!=" +:+ dq +:+ ", " +:+ dq +:+ ">" +:+ dq +:+ ", " +:+ dq +:+ "<" +:+ dq +:+ ", " +:+ dq +:+ "<=" +:+ dq +:+ ", " +:+ dq +:+ ">=" +:+ dq +:+ " or " +:+ dq +:+ ":" +:+ dq +:+ ". For";
    "example, if you are filtering Compute Engine instances, you can";
    "exclude instances named " +:+ dq +:+ "example-instance" +:+ dq +:+ " by specifying " +:+ dq +:+ "name !=";
    "example-instance" +:+ dq +:+ ". The " +:+ dq +:+ ":" +:+ dq +:+ " operator can be used with string fields to";
    "match substrings. For non-string fields it is equivalent to the " +:+ dq +:+ "=" +:+ dq;
    "operator. The " +:+ dq +:+ ":*" +:+ dq +:+ " comparison can be used to test whether a key has";
    "been defined. For example, to find all objects with " +:+ dq +:+ "owner" +:+ dq +:+ " label";
    "use: " +:+ dq +:+ dq +:+ dq +:+ " labels.owner:* " +:+ dq +:+ dq +:+ dq +:+ " You can also filter nested fields. For";
    "example, you could specify " +:+ dq +:+ "scheduling.automaticRestart = false" +:+ dq +:+ " to";
    "include instances only if they are not scheduled for automatic";
    "restarts. You can use filtering on nested fields to filter based on";
    "resource labels. To filter on multiple expressions, provide each";
    "separate expression within parentheses. For example: " +:+ dq +:+ dq +:+ dq;
    "(scheduling.automaticRestart = true) (cpuPlatform = " +:+ dq +:+ "Intel Skylake" +:+ dq +:+ ")";
    dq +:+ dq +:+ dq +:+ " By default, each expression is an " +:+ dq +:+ "AND" +:+ dq +:+ " expression. However, you";
    "can include " +:+ dq +:+ "AND" +:+ dq +:+ " and " +:+ dq +:+ "OR" +:+ dq +:+ " expressions explicitly. For example: " +:+ dq +:+ dq +:+ dq;
    "(cpuPlatform = " +:+ dq +:+ "Intel Skylake" +:+ dq +:+ ") OR (cpuPlatform = " +:+ dq +:+ "Intel Broadwell" +:+ dq +:+ ")";
    "AND (scheduling.automaticRestart = true) " +:+ dq +:+ dq +:+ dq
  ].

(** A computed string attribute of a list element. *)
Definition computedString (description : string) : Schema :=
  {| Type_ := TypeString; Optional := false; Computed := true; Elem := None;
     Description := description |}.

(** The element of ["secondary_ip_ranges"] (source lines 41-52). *)
Definition secondaryIpRangeSchema : gmap string Schema :=
  <["range_name" := computedString
      "The name associated with this subnetwork secondary range, used when adding an alias IP range to a VM instance"]>
  (<["ip_cidr_range" := computedString
      "The range of IP addresses belonging to this subnetwork secondary range."]> ∅).

(** The element of ["subnetworks"] (source lines 21-85). *)
Definition subnetworkSchema : gmap string Schema :=
  <["subnetwork" := computedString "The URL of the subnetwork."]>
  (<["network" := computedString "The URL of the network"]>
  (<["ip_cidr_range" := computedString
       "The range of internal addresses that are owned by this subnetwork."]>
  (<["secondary_ip_ranges" :=
       {| Type_ := TypeList; Optional := false; Computed := true;
          Elem := Some secondaryIpRangeSchema; Description := "" |}]>
  (<["stack_type" := computedString "The stack type for the subnet."]>
  (<["ipv6_access_type" := computedString "The access type of IPv6 address this subnet holds."]>
  (<["purpose" := computedString "The purpose of the resource."]>
  (<["role" := computedString "The role of subnetwork."]>
  (<["external_ipv6_prefix" := computedString
       "The external IPv6 address range that is assigned to this subnetwork."]>
  (<["internal_ipv6_prefix" := computedString
       "The internal IPv6 address range that is assigned to this subnetwork."]> ∅))))))))).

(** The attributes of the data source (source lines 16-123). *)
Definition dataSourceSchema : gmap string Schema :=
  <["subnetworks" :=
      {| Type_ := TypeList; Optional := false; Computed := true;
         Elem := Some subnetworkSchema;
         Description := "A list of usable subnetwork URLs." |}]>
  (<["filter" :=
      {| Type_ := TypeString; Optional := true; Computed := false; Elem := None;
         Description := filterDescription |}]>
  (<["project" :=
      {| Type_ := TypeString; Optional := true; Computed := true; Elem := None;
         Description :=
           "The google project in which usable subnetworks are listed. Defaults to provider's configuration if missing." |}]> ∅)).

Section DataSource.

Variable generateUserAgentString : ResourceData -> string -> error + string.
Variable getProject : ResourceData -> Config -> error + string.
Variable writeFieldError : string -> Value -> option error.

Definition dataSourceGoogleComputeUsableSubnetworks : Resource :=
  {| ReadContext :=
       dataSourceGoogleComputeUsableSubnetworksRead
         generateUserAgentString getProject writeFieldError;
     Schema_ := dataSourceSchema |}.

End DataSource.

(** A value has the shape a schema declares: a string for [TypeString]; for
    [TypeList], a list of maps in which every key is an attribute of the
    element and holds a value of that attribute's shape. *)
Inductive Conforms : Schema -> Value -> Prop :=
| Conforms_string sch v :
    Type_ sch = TypeString -> Conforms sch (VString v)
| Conforms_list sch elem l :
    Type_ sch = TypeList ->
    Elem sch = Some elem ->
    (forall v, In v (Slice.elems l) ->
       exists m, v = VMap m
                 /\ forall key x, m !! key = Some x ->
                      exists sub, elem !! key = Some sub /\ Conforms sub x) ->
    Conforms sch (VList l).

(** ** A small provider, server and configuration to run the read on *)
Module Example.

Definition subnetA : UsableSubnetwork :=
  {| ExternalIpv6Prefix := ""; InternalIpv6Prefix := ""; IpCidrRange := "10.0.0.0/24";
     Ipv6AccessType := ""; Network := "net"; Purpose := "PRIVATE"; Role := "";
     SecondaryIpRanges := Slice.Of [ {| RangeName := "pods"; SecIpCidrRange := "10.1.0.0/16" |} ];
     StackType := "IPV4_ONLY"; Subnetwork := "a" |}.

Definition subnetB : UsableSubnetwork :=
  {| ExternalIpv6Prefix := ""; InternalIpv6Prefix := ""; IpCidrRange := "10.0.1.0/24";
     Ipv6AccessType := ""; Network := "net"; Purpose := "PRIVATE"; Role := "";
     SecondaryIpRanges := Slice.Nil; StackType := "IPV4_ONLY"; Subnetwork := "b" |}.

Definition subnetC : UsableSubnetwork :=
  {| ExternalIpv6Prefix := "2600:1900::/48"; InternalIpv6Prefix := ""; IpCidrRange := "10.0.2.0/24";
     Ipv6AccessType := "EXTERNAL"; Network := "net"; Purpose := "PRIVATE"; Role := "";
     SecondaryIpRanges := Slice.Of []; StackType := "IPV4_IPV6"; Subnetwork := "c" |}.

Definition page1 : UsableSubnetworksAggregatedList :=
  {| Items := Slice.Of [subnetA; subnetB]; NextPageToken := "t2" |}.

Definition page2 : UsableSubnetworksAggregatedList :=
  {| Items := Slice.Of [subnetC]; NextPageToken := "" |}.

(** A server with two pages. *)
Definition twoPages (q : Request) : error + UsableSubnetworksAggregatedList :=
  match reqParams q !! "pageToken" with
  | None => inr page1
  | Some tok =>
      if decide (tok = "t2") then inr page2 else inl (errorString "invalid page token")
  end.

(** A server that fails on the second page. *)
Definition secondPageFails (q : Request) : error + UsableSubnetworksAggregatedList :=
  match reqParams q !! "pageToken" with
  | None => inr page1
  | Some _ => inl (errorString "backend unavailable")
  end.

Definition configWith (transport : Request -> error + UsableSubnetworksAggregatedList) : Config :=
  {| userAgent := "terraform";
     NewComputeClient := fun ua => {| UserAgent := ua; roundTrip := transport |} |}.

Definition userAgentOk (d : ResourceData) (ua : string) : error + string := inr ua.

Definition userAgentFails (d : ResourceData) (ua : string) : error + string :=
  inl (errorString "no provider user agent").

Definition projectIs (p : string) (d : ResourceData) (config : Config) : error + string := inr p.

Definition projectFails (d : ResourceData) (config : Config) : error + string :=
  inl (errorString "project: required field is not set").

Definition acceptAll (key : string) (value : Value) : option error := None.

Definition rejectKey (bad : string) (key : string) (value : Value) : option error :=
  if decide (key = bad) then Some (errorString "boom") else None.

(** Resource data with the given filter configuration and nothing else. *)
Definition dataWithFilter (filter : option string) : ResourceData :=
  {| Attributes := match filter with
                   | Some f => {[ "filter" := f ]}
                   | None => ∅
                   end;
     Composite := ∅;
     Id := "" |}.

End Example.

(** ** More servers to run the read on *)
Module Example2.

(** All three subnetworks on one page. *)
Definition onePage (q : Request) : error + UsableSubnetworksAggregatedList :=
  inr {| Items := Slice.Of [Example.subnetA; Example.subnetB; Example.subnetC];
         NextPageToken := "" |}.

(** Two pages without items: a nil list, then an empty one. *)
Definition noItems (q : Request) : error + UsableSubnetworksAggregatedList :=
  match reqParams q !! "pageToken" with
  | None => inr {| Items := Slice.Nil; NextPageToken := "next" |}
  | Some _ => inr {| Items := Slice.Of []; NextPageToken := "" |}
  end.

End Example2.

(** * Properties *)

(** ** Loops that append are maps *)

Lemma fold_append_elems {A B} (f : A -> B) (l : list A) (acc : Slice.t B) :
  fold_left (fun acc x => Slice.append acc (f x)) l acc
  = match l with
    | [] => acc
    | _ => Slice.Of (Slice.elems acc ++ List.map f l)
    end.
Proof.
  revert acc. induction l as [|x l IH]; intros acc; [done|].
  cbn [fold_left]. rewrite IH. destruct l as [|y l]; cbn.
  - done.
  - by rewrite <- app_assoc.
Qed.

Lemma fold_append_Of {A B} (f : A -> B) (l : list A) (acc : list B) :
  fold_left (fun acc x => Slice.append acc (f x)) l (Slice.Of acc)
  = Slice.Of (acc ++ List.map f l).
Proof.
  rewrite fold_append_elems. destruct l; cbn; [by rewrite app_nil_r | done].
Qed.

Lemma generateTfSecondaryIpRanges_map secondaryIpRanges :
  generateTfSecondaryIpRanges secondaryIpRanges
  = Slice.Of (List.map generateTfSecondaryIpRange (Slice.elems secondaryIpRanges)).
Proof. unfold generateTfSecondaryIpRanges, Slice.make0. by rewrite fold_append_Of. Qed.

(** ** Lookups in the reshaped maps *)

Ltac map_lookup := repeat (rewrite lookup_insert_ne by done); rewrite ?lookup_insert_eq, ?lookup_empty.

Lemma recoverSecondaryIpRange_generate r :
  recoverSecondaryIpRange (VMap (generateTfSecondaryIpRange r)) = Some r.
Proof.
  destruct r as [n c]. unfold recoverSecondaryIpRange, generateTfSecondaryIpRange, lookupString.
  cbn [RangeName SecIpCidrRange]. by map_lookup.
Qed.

Lemma recoverSecondaryIpRanges_generate l :
  mapM recoverSecondaryIpRange (List.map VMap (List.map generateTfSecondaryIpRange l)) = Some l.
Proof.
  induction l as [|r l IH]; [done|].
  cbn [List.map mapM]. rewrite recoverSecondaryIpRange_generate. cbn. by rewrite IH.
Qed.

Lemma recoverSubnetwork_generate u :
  recoverSubnetwork (generateTfSubnetwork u) = Some (withEmptyForNil u).
Proof.
  unfold recoverSubnetwork, generateTfSubnetwork, lookupString.
  repeat (map_lookup; cbn [mbind option_bind]).
  rewrite generateTfSecondaryIpRanges_map. cbn [Slice.map recoverSecondaryIpRanges].
  rewrite recoverSecondaryIpRanges_generate. cbn [fmap option_fmap option_map mbind option_bind].
  repeat (map_lookup; cbn [mbind option_bind]). done.
Qed.

(** C9: [generateTfSecondaryIpRanges] never returns nil: its result is the
    non-nil slice of the reshaped ranges, so for a nil or an empty input it is
    the empty, length-zero slice, and a subnetwork without secondary ranges
    carries an empty [secondary_ip_ranges] list in its map. *)
Theorem generateTfSecondaryIpRanges_non_nil :
  forall secondaryIpRanges : Slice.t UsableSubnetworkSecondaryRange,
    Slice.is_nil (generateTfSecondaryIpRanges secondaryIpRanges) = false
    /\ Slice.len (generateTfSecondaryIpRanges secondaryIpRanges) = Slice.len secondaryIpRanges
    /\ (Slice.len secondaryIpRanges = 0 ->
        generateTfSecondaryIpRanges secondaryIpRanges = Slice.Of []
        /\ forall u : UsableSubnetwork,
             SecondaryIpRanges u = secondaryIpRanges ->
             generateTfSubnetwork u !! "secondary_ip_ranges" = Some (VList (Slice.Of []))).
Proof.
  intros l. rewrite generateTfSecondaryIpRanges_map. split; [done|]. split.
  - unfold Slice.len. cbn. by rewrite length_map.
  - intros Hlen. assert (Slice.elems l = []) as ->.
    { unfold Slice.len in Hlen. by destruct (Slice.elems l). }
    split; [done|]. intros u Hu. unfold generateTfSubnetwork. map_lookup.
    rewrite Hu, generateTfSecondaryIpRanges_map.
    assert (Slice.elems l = []) as ->.
    { unfold Slice.len in Hlen. by destruct (Slice.elems l). }
    done.
Qed.

(** C9 at a nil and at an empty list of ranges. *)
Lemma generateTfSecondaryIpRanges_non_nil_witness :
  (generateTfSecondaryIpRanges Slice.Nil = Slice.Of []
   /\ generateTfSubnetwork
        {| ExternalIpv6Prefix := ""; InternalIpv6Prefix := ""; IpCidrRange := "10.0.0.0/24";
           Ipv6AccessType := ""; Network := "n"; Purpose := "PRIVATE"; Role := "";
           SecondaryIpRanges := Slice.Nil; StackType := "IPV4_ONLY"; Subnetwork := "s" |}
      !! "secondary_ip_ranges" = Some (VList (Slice.Of [])))
  /\ generateTfSecondaryIpRanges (Slice.Of []) = Slice.Of [].
Proof.
  split.
  - destruct (generateTfSecondaryIpRanges_non_nil Slice.Nil) as (_ & _ & H).
    destruct (H eq_refl) as [H1 H2]. split; [exact H1|]. apply H2. reflexivity.
  - destruct (generateTfSecondaryIpRanges_non_nil (Slice.Of [])) as (_ & _ & H).
    exact (proj1 (H eq_refl)).
Defined.

(** ** The reshaped subnetwork *)

Lemma generateTfSubnetwork_dom u : dom (generateTfSubnetwork u) = subnetworkKeys.
Proof.
  unfold generateTfSubnetwork, subnetworkKeys.
  rewrite !dom_insert_L, dom_empty_L. set_solver.
Qed.

Lemma withEmptyForNil_id u :
  Slice.is_nil (SecondaryIpRanges u) = false -> withEmptyForNil u = u.
Proof.
  destruct u as [a b c e f g h l i j]. unfold withEmptyForNil. cbn.
  destruct l; [done|]. by intros _.
Qed.

(** C2, as stated, fails: a subnetwork whose [SecondaryIpRanges] is nil and
    one whose [SecondaryIpRanges] is the empty slice are different structs
    with the same map, so no function recovers both from it. *)
Lemma generateTfSubnetwork_nil_empty_collide :
  let mk := fun ranges =>
    {| ExternalIpv6Prefix := ""; InternalIpv6Prefix := ""; IpCidrRange := "10.0.0.0/24";
       Ipv6AccessType := ""; Network := "n"; Purpose := "PRIVATE"; Role := "";
       SecondaryIpRanges := ranges; StackType := "IPV4_ONLY"; Subnetwork := "s" |} in
  mk Slice.Nil <> mk (Slice.Of [])
  /\ generateTfSubnetwork (mk Slice.Nil) = generateTfSubnetwork (mk (Slice.Of []))
  /\ ~ (exists recover : TfMap -> option UsableSubnetwork,
          forall u, recover (generateTfSubnetwork u) = Some u).
Proof.
  intros mk.
  assert (mk Slice.Nil <> mk (Slice.Of [])) as Hne by (unfold mk; congruence).
  assert (generateTfSubnetwork (mk Slice.Nil) = generateTfSubnetwork (mk (Slice.Of []))) as Heq
    by reflexivity.
  split; [exact Hne|]. split; [exact Heq|].
  intros [recover Hrec]. apply Hne.
  pose proof (Hrec (mk Slice.Nil)) as H1. pose proof (Hrec (mk (Slice.Of []))) as H2.
  rewrite Heq in H1. congruence.
Qed.

(** C2, amended: every one of the ten fields appears unchanged under its
    schema key, the map has no other key, every secondary range appears in
    order with its [RangeName] and [IpCidrRange], and the struct is recovered
    from the map, except that a nil [SecondaryIpRanges] comes back as the
    empty slice. *)
Theorem generateTfSubnetwork_field_for_field :
  forall u : UsableSubnetwork,
    generateTfSubnetwork u !! "subnetwork" = Some (VString (Subnetwork u))
    /\ generateTfSubnetwork u !! "network" = Some (VString (Network u))
    /\ generateTfSubnetwork u !! "ip_cidr_range" = Some (VString (IpCidrRange u))
    /\ generateTfSubnetwork u !! "secondary_ip_ranges"
       = Some (VList (Slice.Of (List.map (fun r => VMap (generateTfSecondaryIpRange r))
                                         (Slice.elems (SecondaryIpRanges u)))))
    /\ generateTfSubnetwork u !! "stack_type" = Some (VString (StackType u))
    /\ generateTfSubnetwork u !! "ipv6_access_type" = Some (VString (Ipv6AccessType u))
    /\ generateTfSubnetwork u !! "purpose" = Some (VString (Purpose u))
    /\ generateTfSubnetwork u !! "role" = Some (VString (Role u))
    /\ generateTfSubnetwork u !! "external_ipv6_prefix" = Some (VString (ExternalIpv6Prefix u))
    /\ generateTfSubnetwork u !! "internal_ipv6_prefix" = Some (VString (InternalIpv6Prefix u))
    /\ dom (generateTfSubnetwork u) = subnetworkKeys
    /\ (forall r : UsableSubnetworkSecondaryRange,
          generateTfSecondaryIpRange r !! "range_name" = Some (VString (RangeName r))
          /\ generateTfSecondaryIpRange r !! "ip_cidr_range" = Some (VString (SecIpCidrRange r))
          /\ dom (generateTfSecondaryIpRange r) = {[ "range_name"; "ip_cidr_range" ]})
    /\ recoverSubnetwork (generateTfSubnetwork u) = Some (withEmptyForNil u)
    /\ (Slice.is_nil (SecondaryIpRanges u) = false ->
        recoverSubnetwork (generateTfSubnetwork u) = Some u).
Proof.
  intros u.
  repeat match goal with
         | |- generateTfSubnetwork _ !! _ = _ /\ _ => split
         end;
    try (unfold generateTfSubnetwork; by map_lookup).
  - unfold generateTfSubnetwork. map_lookup.
    rewrite generateTfSecondaryIpRanges_map. cbn [Slice.map]. by rewrite map_map.
  - split; [apply generateTfSubnetwork_dom|]. split.
    + intros r. unfold generateTfSecondaryIpRange. repeat split; by map_lookup.
    + split; [apply recoverSubnetwork_generate|].
      intros Hnil. rewrite recoverSubnetwork_generate. by rewrite withEmptyForNil_id.
Qed.

(** C2 at a subnetwork with two secondary ranges: the struct comes back. *)
Lemma generateTfSubnetwork_field_for_field_witness :
  let u :=
    {| ExternalIpv6Prefix := "2600:1900::/48"; InternalIpv6Prefix := "fd20::/48";
       IpCidrRange := "10.0.0.0/24"; Ipv6AccessType := "EXTERNAL"; Network := "net";
       Purpose := "PRIVATE"; Role := "ACTIVE";
       SecondaryIpRanges :=
         Slice.Of [ {| RangeName := "pods"; SecIpCidrRange := "10.1.0.0/16" |};
                    {| RangeName := "services"; SecIpCidrRange := "10.2.0.0/20" |} ];
       StackType := "IPV4_IPV6"; Subnetwork := "sub" |} in
  Slice.is_nil (SecondaryIpRanges u) = false
  /\ recoverSubnetwork (generateTfSubnetwork u) = Some u.
Proof.
  intros u. split; [reflexivity|].
  apply (generateTfSubnetwork_field_for_field u). reflexivity.
Defined.

(** ** The synthetic ID *)

Lemma GetOk_filter d :
  GetOk d "filter" = (default "" (Attributes d !! "filter"),
                      match filterParam d with Some _ => true | None => false end).
Proof.
  unfold GetOk, filterParam. destruct (Attributes d !! "filter") as [f|]; [|done].
  cbn. by case_decide.
Qed.

Lemma computeUsableSubnetworksListId_filterOrALL project d :
  computeUsableSubnetworksListId project d = project +:+ "-" +:+ filterOrALL d.
Proof.
  unfold computeUsableSubnetworksListId, filterOrALL, GetOk.
  destruct (Attributes d !! "filter") as [f|]; [|done]. by case_decide.
Qed.

(** C1, as stated, fails when the filter is set to the empty string: the
    lookup reports it as not set and the ID ends in ["ALL"], not in the
    configured (empty) filter. *)
Lemma computeUsableSubnetworksListId_empty_filter :
  let d := {| Attributes := {[ "filter" := "" ]}; Composite := ∅; Id := "" |} in
  Attributes d !! "filter" = Some ""
  /\ computeUsableSubnetworksListId "p" d = "p-ALL"
  /\ computeUsableSubnetworksListId "p" d <> "p" +:+ "-" +:+ filterOrALL_spec d.
Proof. cbn. split; [reflexivity|]. split; [reflexivity|]. discriminate. Qed.

(** C1, amended: the ID is the project, a dash, and the configured filter
    when that filter is set and not empty, ["ALL"] otherwise; project ["p"]
    gives ["p-ALL"] with no filter and ["p-name=foo"] with filter
    ["name=foo"]. *)
Theorem computeUsableSubnetworksListId_spec :
  forall (p : string) (d : ResourceData),
    computeUsableSubnetworksListId p d = p +:+ "-" +:+ filterOrALL d
    /\ computeUsableSubnetworksListId "p"
         {| Attributes := delete "filter" (Attributes d); Composite := Composite d; Id := Id d |}
       = "p-ALL"
    /\ computeUsableSubnetworksListId "p"
         {| Attributes := <["filter" := "name=foo"]> (Attributes d);
            Composite := Composite d; Id := Id d |}
       = "p-name=foo".
Proof.
  intros p d. split; [apply computeUsableSubnetworksListId_filterOrALL|].
  rewrite !computeUsableSubnetworksListId_filterOrALL. unfold filterOrALL. cbn [Attributes].
  rewrite lookup_delete_eq, lookup_insert_eq. split; reflexivity.
Qed.

(** ** The pager *)

Lemma length_pageRequests c pages : length (pageRequests c pages) = length pages.
Proof. revert c. induction pages as [|x pages IH]; intros c; cbn; [done|]. by rewrite IH. Qed.

Lemma length_runRequests c pages r :
  length (runRequests c pages r) = length pages + match r with Some _ => 1 | None => 0 end.
Proof.
  destruct r; cbn; rewrite ?length_app, length_pageRequests; cbn; lia.
Qed.

Lemma Pages_PageRun {St : Type} (f : UsableSubnetworksAggregatedList -> St -> St * option error)
    c pages r :
  PageRun c pages r ->
  (forall x st, (f x st).2 = None) ->
  forall (st : St) (fuel : nat),
    length (runRequests c pages r) <= fuel ->
    Pages fuel c f st
    = Some (runRequests c pages r, fold_left (fun st x => (f x st).1) pages st, r).
Proof.
  intros Hrun Hf. induction Hrun as [c err Hdo | c x Hdo Hlast | c x xs r Hdo Hmore Hrun IH];
    intros st fuel Hfuel.
  - destruct fuel as [|fuel]; [rewrite length_runRequests in Hfuel; cbn in Hfuel; lia|].
    cbn. by rewrite Hdo.
  - destruct fuel as [|fuel]; [rewrite length_runRequests in Hfuel; cbn in Hfuel; lia|].
    cbn. rewrite Hdo.
    pose proof (Hf x st) as Hx. destruct (f x st) as [st' e]. cbn in Hx. subst e.
    by rewrite decide_True.
  - destruct fuel as [|fuel].
    { rewrite length_runRequests in Hfuel. cbn in Hfuel. lia. }
    cbn [Pages]. rewrite Hdo.
    pose proof (Hf x st) as Hx. destruct (f x st) as [st' e] eqn:Hfx. cbn in Hx. subst e.
    rewrite decide_False by done.
    rewrite (IH st' fuel).
    + cbn [fold_left]. rewrite Hfx. by destruct r.
    + rewrite length_runRequests in Hfuel |- *. cbn in Hfuel. lia.
Qed.

Lemma Pages_inv {St : Type} (f : UsableSubnetworksAggregatedList -> St -> St * option error)
    fuel c (st : St) sent st' r :
  (forall x st, (f x st).2 = None) ->
  Pages fuel c f st = Some (sent, st', r) ->
  exists pages, PageRun c pages r /\ length (runRequests c pages r) <= fuel.
Proof.
  intros Hf. revert c st sent st' r.
  induction fuel as [|fuel IH]; intros c st sent st' r Hp; [done|].
  cbn [Pages] in Hp. destruct (Do c) as [err|x] eqn:Hdo.
  - injection Hp as <- <- <-. exists []. split; [by constructor|].
    rewrite length_runRequests. cbn. lia.
  - pose proof (Hf x st) as Hx. destruct (f x st) as [st1 e]. cbn in Hx. subst e.
    case_decide as Htok.
    + injection Hp as <- <- <-. exists [x]. split; [by constructor|].
      rewrite length_runRequests. cbn. lia.
    + destruct (Pages fuel _ f st1) as [[[sent1 st2] r1]|] eqn:Hrec; [|done].
      injection Hp as <- <- <-.
      destruct (IH _ _ _ _ _ Hrec) as (pages & Hrun & Hlen).
      exists (x :: pages). split; [by constructor|].
      rewrite length_runRequests in Hlen |- *. cbn. lia.
Qed.

Lemma sameButToken_PageToken c tok q :
  sameButToken (PageToken c tok) q -> sameButToken c q.
Proof.
  intros (Hua & Hp & Hk). repeat split; [done..|].
  intros key Hkey. rewrite (Hk key Hkey). cbn. by rewrite lookup_insert_ne.
Qed.

Lemma sameButToken_requestOf c : sameButToken c (requestOf c).
Proof. done. Qed.

Lemma pageRequests_sameButToken c pages :
  Forall (sameButToken c) (pageRequests c pages)
  /\ sameButToken c (requestOf (callAfter c pages)).
Proof.
  revert c. induction pages as [|x pages IH]; intros c; cbn.
  - split; [constructor | apply sameButToken_requestOf].
  - destruct (IH (PageToken c (NextPageToken x))) as [Hall Hlast]. split.
    + constructor; [apply sameButToken_requestOf|].
      eapply Forall_impl; [exact Hall|]. intros q. apply sameButToken_PageToken.
    + eapply sameButToken_PageToken. exact Hlast.
Qed.

Lemma runRequests_sameButToken c pages r :
  Forall (sameButToken c) (runRequests c pages r).
Proof.
  destruct (pageRequests_sameButToken c pages) as [Hall Hlast].
  destruct r; cbn; [|done]. apply Forall_app. split; [done|]. by constructor.
Qed.

Lemma runRequests_head c pages r :
  PageRun c pages r -> exists rest, runRequests c pages r = requestOf c :: rest.
Proof.
  intros Hrun. destruct Hrun; cbn; eauto.
  destruct r; cbn; eauto.
Qed.

(** ** The read operation *)

Lemma collectPage_never_fails x st : (collectPage x st).2 = None.
Proof. done. Qed.

Lemma collectPage_fold pages acc :
  fold_left (fun st x => (collectPage x st).1) pages (Slice.Of acc)
  = Slice.Of (acc ++ reshapedItems pages).
Proof.
  revert acc. induction pages as [|x pages IH]; intros acc; cbn [fold_left].
  - unfold reshapedItems. cbn. by rewrite app_nil_r.
  - unfold collectPage at 2. cbn [fst]. rewrite fold_append_Of, IH.
    unfold reshapedItems. cbn [flat_map]. by rewrite app_assoc.
Qed.

Lemma reshapedItems_map pages :
  reshapedItems pages
  = List.map generateTfSubnetwork (flat_map (fun page => Slice.elems (Items page)) pages).
Proof.
  unfold reshapedItems. induction pages as [|x pages IH]; cbn [flat_map]; [done|].
  by rewrite map_app, IH.
Qed.

Lemma listUsableRequest_params d config ua project :
  listUsableRequest d config ua project
  = {| s := NewComputeClient config ua; project := project;
       urlParams_ := match filterParam d with
                     | Some f => {[ "filter" := f ]}
                     | None => ∅
                     end |}.
Proof.
  unfold listUsableRequest. rewrite GetOk_filter. unfold filterParam.
  destruct (Attributes d !! "filter") as [f|]; [|done]. by case_decide.
Qed.

Lemma listUsableRequest_filter d config ua project :
  urlParams_ (listUsableRequest d config ua project) !! "filter" = filterParam d.
Proof.
  rewrite listUsableRequest_params. cbn. destruct (filterParam d); [|done].
  by rewrite lookup_singleton_eq.
Qed.

Lemma filterOrALL_writeField d key value :
  key <> "filter" -> filterOrALL (writeField d key value) = filterOrALL d.
Proof.
  intros Hkey. unfold filterOrALL, writeField.
  destruct value; cbn [Attributes]; [|done..]. by rewrite lookup_insert_ne.
Qed.

Lemma writeField_Composite d key value key' :
  key' <> key -> Composite (writeField d key value) !! key' = Composite d !! key'.
Proof.
  intros Hkey. unfold writeField. destruct value; cbn [Composite]; [done|..];
    by rewrite lookup_insert_ne.
Qed.

Section ReadProperties.

Variable generateUserAgentString : ResourceData -> string -> error + string.
Variable getProject : ResourceData -> Config -> error + string.
Variable writeFieldError : string -> Value -> option error.

Local Abbreviation read :=
  (dataSourceGoogleComputeUsableSubnetworksRead generateUserAgentString getProject writeFieldError).

(** A read whose paging ends in an error. *)
Lemma read_failed_pages fuel d meta ua project pages err :
  generateUserAgentString d (userAgent meta) = inr ua ->
  getProject d meta = inr project ->
  PageRun (listUsableRequest d meta ua project) pages (Some err) ->
  length pages < fuel ->
  read fuel d meta
  = Some (FromErr err, d, runRequests (listUsableRequest d meta ua project) pages (Some err)).
Proof.
  intros Hua Hproj Hrun Hfuel. unfold dataSourceGoogleComputeUsableSubnetworksRead.
  rewrite Hua, Hproj.
  rewrite (Pages_PageRun collectPage _ _ _ Hrun collectPage_never_fails); [done|].
  rewrite length_runRequests. lia.
Qed.

(** A read that got all its pages: what remains are the two writes and the
    ID. *)
Lemma read_all_pages fuel d meta ua project pages :
  generateUserAgentString d (userAgent meta) = inr ua ->
  getProject d meta = inr project ->
  PageRun (listUsableRequest d meta ua project) pages None ->
  length pages <= fuel ->
  let sent := runRequests (listUsableRequest d meta ua project) pages None in
  let subnetworks := VList (Slice.Of (List.map VMap (reshapedItems pages))) in
  read fuel d meta
  = match writeFieldError "subnetworks" subnetworks with
    | Some err => Some (FromErr (Errorf "error setting subnetworks: " err), d, sent)
    | None =>
        let d1 := writeField d "subnetworks" subnetworks in
        match writeFieldError "project" (VString project) with
        | Some err => Some (FromErr (Errorf "error setting project: " err), d1, sent)
        | None =>
            let d2 := writeField d1 "project" (VString project) in
            Some ([], SetId d2 (project +:+ "-" +:+ filterOrALL d), sent)
        end
    end.
Proof.
  intros Hua Hproj Hrun Hfuel sent subnetworks.
  unfold dataSourceGoogleComputeUsableSubnetworksRead. rewrite Hua, Hproj.
  rewrite (Pages_PageRun collectPage _ _ _ Hrun collectPage_never_fails)
    by (rewrite length_runRequests; lia).
  unfold Slice.make0. rewrite collectPage_fold. cbn [app Slice.map].
  fold subnetworks. unfold d_Set.
  destruct (writeFieldError "subnetworks" subnetworks); [done|].
  destruct (writeFieldError "project" (VString project)); [done|].
  rewrite computeUsableSubnetworksListId_filterOrALL.
  by rewrite !filterOrALL_writeField.
Qed.

(** Every way in which the read can return. *)
Lemma read_inv fuel d meta diags d' sent :
  read fuel d meta = Some (diags, d', sent) ->
  (exists err, generateUserAgentString d (userAgent meta) = inl err
               /\ diags = FromErr err /\ d' = d /\ sent = [])
  \/ (exists ua err, generateUserAgentString d (userAgent meta) = inr ua
                     /\ getProject d meta = inl err
                     /\ diags = FromErr err /\ d' = d /\ sent = [])
  \/ (exists ua project pages r,
        generateUserAgentString d (userAgent meta) = inr ua
        /\ getProject d meta = inr project
        /\ PageRun (listUsableRequest d meta ua project) pages r
        /\ length (runRequests (listUsableRequest d meta ua project) pages r) <= fuel
        /\ sent = runRequests (listUsableRequest d meta ua project) pages r).
Proof.
  intros Hread. unfold dataSourceGoogleComputeUsableSubnetworksRead in Hread.
  destruct (generateUserAgentString d (userAgent meta)) as [err|ua] eqn:Hua.
  { left. exists err. by injection Hread as <- <- <-. }
  destruct (getProject d meta) as [err|project] eqn:Hproj.
  { right. left. exists ua, err. by injection Hread as <- <- <-. }
  right. right.
  destruct (Pages fuel _ collectPage Slice.make0) as [[[sent0 st] r]|] eqn:Hpages; [|done].
  destruct (Pages_inv _ _ _ _ _ _ _ collectPage_never_fails Hpages) as (pages & Hrun & Hlen).
  rewrite (Pages_PageRun collectPage _ _ _ Hrun collectPage_never_fails _ _ Hlen) in Hpages.
  injection Hpages as <- <-.
  exists ua, project, pages, r. repeat split; [done..|].
  destruct r as [err|]; [by injection Hread as <- <- <-|].
  destruct (d_Set _ _ _ _) as [err|d1]; [by injection Hread as <- <- <-|].
  destruct (d_Set _ _ _ _) as [err|d2]; by injection Hread as <- <- <-.
Qed.

(** C3, amended: a failure to build the user agent, to resolve the project,
    or of the list call at any page ends the read at once with exactly that
    error as its diagnostics, after one request per page delivered and the one
    that failed, and none more.  A failure to set [subnetworks] or [project]
    ends the read as well, with the error's message behind the prefix
    ["error setting subnetworks: "] or ["error setting project: "]. *)
Theorem read_propagates_errors :
  forall (fuel : nat) (d : ResourceData) (meta : Config),
    (forall err,
        generateUserAgentString d (userAgent meta) = inl err ->
        read fuel d meta = Some (FromErr err, d, []))
    /\ (forall ua err,
          generateUserAgentString d (userAgent meta) = inr ua ->
          getProject d meta = inl err ->
          read fuel d meta = Some (FromErr err, d, []))
    /\ (forall ua project pages,
          generateUserAgentString d (userAgent meta) = inr ua ->
          getProject d meta = inr project ->
          (forall err,
              PageRun (listUsableRequest d meta ua project) pages (Some err) ->
              length pages < fuel ->
              exists sent,
                read fuel d meta = Some (FromErr err, d, sent)
                /\ length sent = length pages + 1)
          /\ (forall err,
                PageRun (listUsableRequest d meta ua project) pages None ->
                length pages <= fuel ->
                writeFieldError "subnetworks"
                  (VList (Slice.Of (List.map VMap (reshapedItems pages)))) = Some err ->
                exists sent,
                  read fuel d meta
                  = Some (FromErr (errorString ("error setting subnetworks: " +:+ Error err)), d, sent)
                  /\ length sent = length pages)
          /\ (forall err,
                PageRun (listUsableRequest d meta ua project) pages None ->
                length pages <= fuel ->
                writeFieldError "subnetworks"
                  (VList (Slice.Of (List.map VMap (reshapedItems pages)))) = None ->
                writeFieldError "project" (VString project) = Some err ->
                exists sent,
                  read fuel d meta
                  = Some (FromErr (errorString ("error setting project: " +:+ Error err)),
                          writeField d "subnetworks"
                            (VList (Slice.Of (List.map VMap (reshapedItems pages)))),
                          sent)
                  /\ length sent = length pages)).
Proof.
  intros fuel d meta. split; [|split].
  - intros err Hua. unfold dataSourceGoogleComputeUsableSubnetworksRead. by rewrite Hua.
  - intros ua err Hua Hproj. unfold dataSourceGoogleComputeUsableSubnetworksRead.
    by rewrite Hua, Hproj.
  - intros ua project pages Hua Hproj. split; [|split].
    + intros err Hrun Hfuel. eexists. split.
      * by apply read_failed_pages.
      * rewrite length_runRequests. lia.
    + intros err Hrun Hfuel Hset. eexists. split.
      * rewrite (read_all_pages _ _ _ _ _ _ Hua Hproj Hrun Hfuel). cbv zeta.
        rewrite Hset. reflexivity.
      * rewrite length_runRequests. lia.
    + intros err Hrun Hfuel Hset Hset'. eexists. split.
      * rewrite (read_all_pages _ _ _ _ _ _ Hua Hproj Hrun Hfuel). cbv zeta.
        rewrite Hset, Hset'. reflexivity.
      * rewrite length_runRequests. lia.
Qed.

(** C4: when the list call fails, at the first page or at a later one, the
    read (given fuel for the requests of that exchange) returns error
    diagnostics and the resource data is as it was: the [subnetworks]
    attribute, the [project] attribute and the ID are not written. *)
Theorem read_no_partial_results :
  forall (fuel : nat) (d : ResourceData) (meta : Config) ua project pages err,
    generateUserAgentString d (userAgent meta) = inr ua ->
    getProject d meta = inr project ->
    PageRun (listUsableRequest d meta ua project) pages (Some err) ->
    length pages < fuel ->
    exists diags d' sent,
      read fuel d meta = Some (diags, d', sent)
      /\ HasError diags = true
      /\ d' = d
      /\ Composite d' !! "subnetworks" = Composite d !! "subnetworks"
      /\ Attributes d' !! "project" = Attributes d !! "project"
      /\ Id d' = Id d.
Proof.
  intros fuel d meta ua project pages err Hua Hproj Hrun Hfuel.
  exists (FromErr err), d, (runRequests (listUsableRequest d meta ua project) pages (Some err)).
  split; [by apply read_failed_pages|done].
Qed.

(** C5: when the server delivers the pages [pages] and both writes are
    accepted, the read (given fuel for one request per page) succeeds and the
    [subnetworks] attribute holds exactly the items of all pages, each
    reshaped by [generateTfSubnetwork], page after page and in the order of
    each page: as many entries as there are items, none dropped, repeated or
    moved. *)
Theorem read_collects_all_pages_in_order :
  forall (fuel : nat) (d : ResourceData) (meta : Config) ua project pages,
    generateUserAgentString d (userAgent meta) = inr ua ->
    getProject d meta = inr project ->
    PageRun (listUsableRequest d meta ua project) pages None ->
    length pages <= fuel ->
    writeFieldError "subnetworks"
      (VList (Slice.Of (List.map VMap (reshapedItems pages)))) = None ->
    writeFieldError "project" (VString project) = None ->
    let items := flat_map (fun page => Slice.elems (Items page)) pages in
    exists d' sent,
      read fuel d meta = Some ([], d', sent)
      /\ Composite d' !! "subnetworks"
         = Some (VList (Slice.Of (List.map (fun item => VMap (generateTfSubnetwork item)) items)))
      /\ reshapedItems pages = List.map generateTfSubnetwork items
      /\ (forall i : nat, reshapedItems pages !! i = generateTfSubnetwork <$> items !! i)
      /\ length (reshapedItems pages) = length items.
Proof.
  intros fuel d meta ua project pages Hua Hproj Hrun Hfuel Hset Hset' items.
  eexists _, _. split.
  { rewrite (read_all_pages _ _ _ _ _ _ Hua Hproj Hrun Hfuel). cbv zeta.
    rewrite Hset, Hset'. reflexivity. }
  split.
  { cbn [SetId Composite]. rewrite writeField_Composite by done.
    cbn [writeField Composite]. rewrite lookup_insert_eq.
    by rewrite reshapedItems_map, map_map. }
  rewrite reshapedItems_map. fold items. split; [done|]. split.
  - intros i. by rewrite list_lookup_fmap.
  - by rewrite length_map.
Qed.

(** What a read without error diagnostics has written. *)
Lemma read_success_frame fuel d meta diags d' sent :
  read fuel d meta = Some (diags, d', sent) ->
  HasError diags = false ->
  (forall key, key <> "project" -> Attributes d' !! key = Attributes d !! key)
  /\ (forall key, key <> "subnetworks" -> Composite d' !! key = Composite d !! key)
  /\ (exists ua project pages,
        generateUserAgentString d (userAgent meta) = inr ua
        /\ getProject d meta = inr project
        /\ PageRun (listUsableRequest d meta ua project) pages None
        /\ Attributes d' !! "project" = Some project
        /\ Composite d' !! "subnetworks"
           = Some (VList (Slice.Of (List.map VMap (reshapedItems pages))))
        /\ Id d' = computeUsableSubnetworksListId project d).
Proof.
  intros Hread Hok.
  destruct (read_inv _ _ _ _ _ _ Hread)
    as [(err & _ & -> & _) | [(ua & err & _ & _ & -> & _) | Hpaged]]; [done..|].
  destruct Hpaged as (ua & project & pages & r & Hua & Hproj & Hrun & Hfuel & _).
  rewrite length_runRequests in Hfuel. destruct r as [err|].
  { rewrite (read_failed_pages _ _ _ _ _ _ _ Hua Hproj Hrun) in Hread by lia.
    by injection Hread as <- _ _. }
  rewrite (read_all_pages _ _ _ _ _ _ Hua Hproj Hrun) in Hread by lia.
  cbv zeta in Hread.
  destruct (writeFieldError "subnetworks" _); [by injection Hread as <- _ _|].
  destruct (writeFieldError "project" _); [by injection Hread as <- _ _|].
  injection Hread as _ <- _. cbn [SetId Attributes Composite Id writeField].
  split; [intros key Hkey; by rewrite lookup_insert_ne|].
  split; [intros key Hkey; by rewrite lookup_insert_ne|].
  exists ua, project, pages. rewrite !lookup_insert_eq.
  by rewrite computeUsableSubnetworksListId_filterOrALL.
Qed.

(** C6: a read that returns without error diagnostics has written the
    [subnetworks] attribute, the [project] attribute and the ID, and nothing
    else: every other attribute, the [filter] attribute among them, is as it
    was.  What it writes comes from this invocation alone: the project it
    resolved, the items of the pages it was served, and the ID computed from
    them, whatever the resource data held before.  The read is a function of
    the resource data, the configuration and the server's answers; it keeps
    nothing from one invocation to the next. *)
Theorem read_frame :
  forall (fuel : nat) (d : ResourceData) (meta : Config) diags d' sent,
    read fuel d meta = Some (diags, d', sent) ->
    HasError diags = false ->
    (forall key, key <> "project" -> Attributes d' !! key = Attributes d !! key)
    /\ (forall key, key <> "subnetworks" -> Composite d' !! key = Composite d !! key)
    /\ Attributes d' !! "filter" = Attributes d !! "filter"
    /\ GetOk d' "filter" = GetOk d "filter"
    /\ (exists ua project pages,
          generateUserAgentString d (userAgent meta) = inr ua
          /\ getProject d meta = inr project
          /\ PageRun (listUsableRequest d meta ua project) pages None
          /\ Attributes d' !! "project" = Some project
          /\ Composite d' !! "subnetworks"
             = Some (VList (Slice.Of (List.map VMap (reshapedItems pages))))
          /\ Id d' = computeUsableSubnetworksListId project d).
Proof.
  intros fuel d meta diags d' sent Hread Hok.
  destruct (read_success_frame _ _ _ _ _ _ Hread Hok) as (Hattrs & Hcomp & Hwritten).
  split; [exact Hattrs|]. split; [exact Hcomp|]. split; [by apply Hattrs|].
  split; [|exact Hwritten]. unfold GetOk. by rewrite Hattrs.
Qed.

(** Every request of a read carries the filter parameter the lookup
    decided on. *)
Lemma read_sent_filter fuel d meta diags d' sent :
  read fuel d meta = Some (diags, d', sent) ->
  Forall (fun q => reqParams q !! "filter" = filterParam d) sent.
Proof.
  intros Hread.
  destruct (read_inv _ _ _ _ _ _ Hread)
    as [(err & _ & _ & _ & ->) | [(ua & err & _ & _ & _ & _ & ->) | Hpaged]];
    [constructor..|].
  destruct Hpaged as (ua & project & pages & r & _ & _ & _ & _ & ->).
  eapply Forall_impl; [apply runRequests_sameButToken|].
  intros q (_ & _ & Hparams). rewrite Hparams by done. apply listUsableRequest_filter.
Qed.

(** The first request of a read that got as far as the list call. *)
Lemma read_sent_first fuel d meta diags d' sent ua project :
  read fuel d meta = Some (diags, d', sent) ->
  generateUserAgentString d (userAgent meta) = inr ua ->
  getProject d meta = inr project ->
  exists rest,
    sent = {| reqUserAgent := UserAgent (NewComputeClient meta ua);
              reqProject := project;
              reqParams := match filterParam d with
                           | Some f => {[ "filter" := f ]}
                           | None => ∅
                           end |} :: rest.
Proof.
  intros Hread Hua Hproj.
  destruct (read_inv _ _ _ _ _ _ Hread)
    as [(err & Hua' & _) | [(ua' & err & _ & Hproj' & _) | Hpaged]]; [congruence..|].
  destruct Hpaged as (ua' & project' & pages & r & Hua' & Hproj' & Hrun & _ & ->).
  assert (ua' = ua) as -> by congruence. assert (project' = project) as -> by congruence.
  destruct (runRequests_head _ _ _ Hrun) as [rest ->]. exists rest.
  by rewrite listUsableRequest_params.
Qed.

(** The ID a read without error diagnostics leaves behind. *)
Lemma read_success_id fuel d meta diags d' sent :
  read fuel d meta = Some (diags, d', sent) ->
  HasError diags = false ->
  exists project,
    getProject d meta = inr project
    /\ Id d' = project +:+ "-" +:+ filterOrALL d
    /\ sent <> [].
Proof.
  intros Hread Hok.
  destruct (read_inv _ _ _ _ _ _ Hread)
    as [(err & _ & -> & _) | [(ua & err & _ & _ & -> & _) | Hpaged]]; [done..|].
  destruct Hpaged as (ua & project & pages & r & Hua & Hproj & Hrun & Hfuel & Hsent).
  exists project. split; [done|].
  split; [|destruct (runRequests_head _ _ _ Hrun) as [rest Hrest]; by rewrite Hsent, Hrest].
  rewrite length_runRequests in Hfuel. destruct r as [err|].
  { rewrite (read_failed_pages _ _ _ _ _ _ _ Hua Hproj Hrun) in Hread by lia.
    by injection Hread as <- _ _. }
  rewrite (read_all_pages _ _ _ _ _ _ Hua Hproj Hrun) in Hread by lia.
  cbv zeta in Hread.
  destruct (writeFieldError "subnetworks" _); [by injection Hread as <- _ _|].
  destruct (writeFieldError "project" _); [by injection Hread as <- _ _|].
  by injection Hread as _ <- _.
Qed.

(** C7, amended: the filter parameter is optional.  When the configuration
    sets a filter that is not empty, every request of the read, the first one
    and the one for each further page, carries exactly that string as its
    [filter] parameter; when no filter is set, or the filter is set to the
    empty string, the requests carry no [filter] parameter.  The first request
    has no other parameter. *)
Theorem read_applies_filter :
  forall (fuel : nat) (d : ResourceData) (meta : Config) diags d' sent,
    read fuel d meta = Some (diags, d', sent) ->
    (forall f, Attributes d !! "filter" = Some f -> f <> "" ->
               Forall (fun q => reqParams q !! "filter" = Some f) sent)
    /\ (Attributes d !! "filter" = None \/ Attributes d !! "filter" = Some "" ->
        Forall (fun q => reqParams q !! "filter" = None) sent)
    /\ (forall ua project,
          generateUserAgentString d (userAgent meta) = inr ua ->
          getProject d meta = inr project ->
          exists rest,
            sent = {| reqUserAgent := UserAgent (NewComputeClient meta ua);
                      reqProject := project;
                      reqParams := match filterParam d with
                                   | Some f => {[ "filter" := f ]}
                                   | None => ∅
                                   end |} :: rest).
Proof.
  intros fuel d meta diags d' sent Hread.
  pose proof (read_sent_filter _ _ _ _ _ _ Hread) as Hall. unfold filterParam in Hall.
  split; [|split].
  - intros f Hf Hne. rewrite Hf in Hall. by rewrite decide_False in Hall.
  - intros [Hf|Hf]; rewrite Hf in Hall; [done|]. by rewrite decide_True in Hall.
  - intros ua project Hua Hproj. exact (read_sent_first _ _ _ _ _ _ _ _ Hread Hua Hproj).
Qed.

(** C10: in a read that returns without error diagnostics, the filter in the
    ID and the filter on the requests agree.  A filter that is set and not
    empty is on every request and is the ID's second component; an unset
    filter and a filter set to the empty string both leave the requests
    without a filter and put ["ALL"] in the ID.  The lookup that decides it
    gives the same answer at the request and at the ID. *)
Theorem read_id_filter_agrees_with_request :
  forall (fuel : nat) (d : ResourceData) (meta : Config) diags d' sent,
    read fuel d meta = Some (diags, d', sent) ->
    HasError diags = false ->
    exists project,
      getProject d meta = inr project
      /\ sent <> []
      /\ GetOk d' "filter" = GetOk d "filter"
      /\ (forall f, Attributes d !! "filter" = Some f -> f <> "" ->
                    Forall (fun q => reqParams q !! "filter" = Some f) sent
                    /\ Id d' = project +:+ "-" +:+ f)
      /\ (Attributes d !! "filter" = None \/ Attributes d !! "filter" = Some "" ->
          Forall (fun q => reqParams q !! "filter" = None) sent
          /\ Id d' = project +:+ "-" +:+ "ALL").
Proof.
  intros fuel d meta diags d' sent Hread Hok.
  destruct (read_success_id _ _ _ _ _ _ Hread Hok) as (project & Hproj & Hid & Hsent).
  pose proof (read_sent_filter _ _ _ _ _ _ Hread) as Hall.
  unfold filterParam in Hall. unfold filterOrALL in Hid.
  exists project. split; [done|]. split; [done|]. split; [|split].
  - destruct (read_success_frame _ _ _ _ _ _ Hread Hok) as [Hattrs _].
    unfold GetOk. by rewrite Hattrs.
  - intros f Hf Hne. rewrite Hf in Hall, Hid.
    rewrite decide_False in Hall by done. by rewrite decide_False in Hid.
  - intros [Hf|Hf]; rewrite Hf in Hall, Hid; [done|].
    rewrite decide_True in Hall by done. by rewrite decide_True in Hid.
Qed.

End ReadProperties.

(** ** The read on the example server *)

Lemma twoPages_run filter :
  PageRun (listUsableRequest (Example.dataWithFilter filter) (Example.configWith Example.twoPages)
             "terraform" "p")
          [Example.page1; Example.page2] None.
Proof.
  rewrite listUsableRequest_params.
  eapply PageRun_next; [|discriminate|eapply PageRun_last; [|reflexivity]].
  - unfold Do, Example.twoPages. cbn.
    destruct (filterParam _); [by rewrite lookup_singleton_ne|done].
  - unfold Do, Example.twoPages. cbn. by rewrite lookup_insert_eq.
Qed.

Lemma secondPageFails_run filter :
  PageRun (listUsableRequest (Example.dataWithFilter filter)
             (Example.configWith Example.secondPageFails) "terraform" "p")
          [Example.page1] (Some (errorString "backend unavailable")).
Proof.
  rewrite listUsableRequest_params.
  eapply PageRun_next; [|discriminate|eapply PageRun_fail].
  - unfold Do, Example.secondPageFails. cbn.
    destruct (filterParam _); [by rewrite lookup_singleton_ne|done].
  - unfold Do, Example.secondPageFails. cbn. by rewrite lookup_insert_eq.
Qed.

(** C3, as stated, fails for a failure to set the state: the writer's error
    ["boom"] reaches the caller as ["error setting subnetworks: boom"]. *)
Lemma read_wraps_set_error :
  let d := Example.dataWithFilter None in
  let meta := Example.configWith Example.twoPages in
  exists diags d' sent,
    Example.rejectKey "subnetworks" "subnetworks"
      (VList (Slice.Of (List.map VMap (reshapedItems [Example.page1; Example.page2]))))
    = Some (errorString "boom")
    /\ dataSourceGoogleComputeUsableSubnetworksRead
         Example.userAgentOk (Example.projectIs "p") (Example.rejectKey "subnetworks") 2 d meta
       = Some (diags, d', sent)
    /\ Summary <$> diags = ["error setting subnetworks: boom"]
    /\ diags <> FromErr (errorString "boom").
Proof.
  intros d meta. eexists _, _, _. split; [reflexivity|]. split.
  - rewrite (read_all_pages _ _ _ 2 d meta "terraform" "p" [Example.page1; Example.page2]);
      [reflexivity..| |]; [apply twoPages_run | cbn; lia].
  - split; [reflexivity|discriminate].
Qed.

(** C3 at a failing user agent, a failing project lookup, a failing second
    page and the two failing writes. *)
Lemma read_propagates_errors_witness :
  let d := Example.dataWithFilter (Some "name=foo") in
  (dataSourceGoogleComputeUsableSubnetworksRead
     Example.userAgentFails (Example.projectIs "p") Example.acceptAll 5 d
     (Example.configWith Example.twoPages)
   = Some (FromErr (errorString "no provider user agent"), d, []))
  /\ (dataSourceGoogleComputeUsableSubnetworksRead
       Example.userAgentOk Example.projectFails Example.acceptAll 5 d
       (Example.configWith Example.twoPages)
     = Some (FromErr (errorString "project: required field is not set"), d, []))
  /\ (exists sent,
        dataSourceGoogleComputeUsableSubnetworksRead
          Example.userAgentOk (Example.projectIs "p") Example.acceptAll 5 d
          (Example.configWith Example.secondPageFails)
        = Some (FromErr (errorString "backend unavailable"), d, sent)
        /\ length sent = 2)
  /\ (exists sent,
        dataSourceGoogleComputeUsableSubnetworksRead
          Example.userAgentOk (Example.projectIs "p") (Example.rejectKey "subnetworks") 5 d
          (Example.configWith Example.twoPages)
        = Some (FromErr (errorString "error setting subnetworks: boom"), d, sent)
        /\ length sent = 2)
  /\ (exists sent,
        dataSourceGoogleComputeUsableSubnetworksRead
          Example.userAgentOk (Example.projectIs "p") (Example.rejectKey "project") 5 d
          (Example.configWith Example.twoPages)
        = Some (FromErr (errorString "error setting project: boom"),
                writeField d "subnetworks"
                  (VList (Slice.Of (List.map VMap (reshapedItems [Example.page1; Example.page2])))),
                sent)
        /\ length sent = 2).
Proof.
  intros d. split; [|split; [|split; [|split]]].
  - apply (read_propagates_errors Example.userAgentFails (Example.projectIs "p") Example.acceptAll
             5 d (Example.configWith Example.twoPages)).
    reflexivity.
  - apply (read_propagates_errors Example.userAgentOk Example.projectFails Example.acceptAll
             5 d (Example.configWith Example.twoPages)) with (ua := "terraform"); reflexivity.
  - destruct (read_propagates_errors Example.userAgentOk (Example.projectIs "p") Example.acceptAll
                5 d (Example.configWith Example.secondPageFails)) as (_ & _ & H).
    destruct (H "terraform" "p" [Example.page1] eq_refl eq_refl) as (Hfail & _ & _).
    apply (Hfail (errorString "backend unavailable")); [apply secondPageFails_run | cbn; lia].
  - destruct (read_propagates_errors Example.userAgentOk (Example.projectIs "p")
                (Example.rejectKey "subnetworks")
                5 d (Example.configWith Example.twoPages)) as (_ & _ & H).
    destruct (H "terraform" "p" [Example.page1; Example.page2] eq_refl eq_refl) as (_ & Hset & _).
    apply (Hset (errorString "boom")); [apply twoPages_run | cbn; lia | reflexivity].
  - destruct (read_propagates_errors Example.userAgentOk (Example.projectIs "p")
                (Example.rejectKey "project")
                5 d (Example.configWith Example.twoPages)) as (_ & _ & H).
    destruct (H "terraform" "p" [Example.page1; Example.page2] eq_refl eq_refl) as (_ & _ & Hset).
    apply (Hset (errorString "boom")); [apply twoPages_run | cbn; lia | reflexivity..].
Defined.

(** C4 on the server whose second page fails: nothing is written. *)
Lemma read_no_partial_results_witness :
  let d := Example.dataWithFilter None in
  exists diags d' sent,
    dataSourceGoogleComputeUsableSubnetworksRead
      Example.userAgentOk (Example.projectIs "p") Example.acceptAll 2 d
      (Example.configWith Example.secondPageFails)
    = Some (diags, d', sent)
    /\ HasError diags = true
    /\ d' = d
    /\ Composite d' !! "subnetworks" = None
    /\ Attributes d' !! "project" = None
    /\ Id d' = "".
Proof.
  intros d.
  apply (read_no_partial_results Example.userAgentOk (Example.projectIs "p") Example.acceptAll
           2 d (Example.configWith Example.secondPageFails) "terraform" "p" [Example.page1]
           (errorString "backend unavailable")).
  - reflexivity.
  - reflexivity.
  - apply secondPageFails_run.
  - cbn. lia.
Defined.

(** C5 on the server with two pages: the three items, in order. *)
Lemma read_collects_all_pages_in_order_witness :
  let d := Example.dataWithFilter None in
  exists d' sent,
    dataSourceGoogleComputeUsableSubnetworksRead
      Example.userAgentOk (Example.projectIs "p") Example.acceptAll 2 d
      (Example.configWith Example.twoPages)
    = Some ([], d', sent)
    /\ Composite d' !! "subnetworks"
       = Some (VList (Slice.Of [ VMap (generateTfSubnetwork Example.subnetA);
                                 VMap (generateTfSubnetwork Example.subnetB);
                                 VMap (generateTfSubnetwork Example.subnetC) ])).
Proof.
  intros d.
  destruct (read_collects_all_pages_in_order
              Example.userAgentOk (Example.projectIs "p") Example.acceptAll
              2 d (Example.configWith Example.twoPages) "terraform" "p"
              [Example.page1; Example.page2])
    as (d' & sent & Hread & Hsub & _).
  - reflexivity.
  - reflexivity.
  - apply twoPages_run.
  - cbn. lia.
  - reflexivity.
  - reflexivity.
  - exists d', sent. split; [exact Hread | exact Hsub].
Defined.

(** The outcome of the read on the server with two pages. *)
Lemma read_twoPages filter :
  let d := Example.dataWithFilter filter in
  dataSourceGoogleComputeUsableSubnetworksRead
    Example.userAgentOk (Example.projectIs "p") Example.acceptAll 2 d
    (Example.configWith Example.twoPages)
  = Some ([],
          SetId (writeField (writeField d "subnetworks"
                   (VList (Slice.Of (List.map VMap (reshapedItems [Example.page1; Example.page2])))))
                   "project" (VString "p"))
                ("p" +:+ "-" +:+ filterOrALL d),
          runRequests (listUsableRequest d (Example.configWith Example.twoPages) "terraform" "p")
            [Example.page1; Example.page2] None).
Proof.
  intros d.
  rewrite (read_all_pages _ _ _ 2 d _ "terraform" "p" [Example.page1; Example.page2]);
    [reflexivity..| |]; [apply twoPages_run | cbn; lia].
Qed.

(** C6 on the server with two pages and the filter ["name=foo"]. *)
Lemma read_frame_witness :
  let d := Example.dataWithFilter (Some "name=foo") in
  exists d' sent,
    dataSourceGoogleComputeUsableSubnetworksRead
      Example.userAgentOk (Example.projectIs "p") Example.acceptAll 2 d
      (Example.configWith Example.twoPages)
    = Some ([], d', sent)
    /\ Attributes d' !! "filter" = Some "name=foo"
    /\ (forall key, key <> "project" -> Attributes d' !! key = Attributes d !! key)
    /\ (forall key, key <> "subnetworks" -> Composite d' !! key = Composite d !! key).
Proof.
  intros d. eexists _, _. split; [apply (read_twoPages (Some "name=foo"))|].
  destruct (read_frame Example.userAgentOk (Example.projectIs "p") Example.acceptAll
              2 d (Example.configWith Example.twoPages) _ _ _
              (read_twoPages (Some "name=foo")) eq_refl)
    as (Hattrs & Hcomp & Hfilter & _).
  split; [|split; [exact Hattrs | exact Hcomp]].
  rewrite Hfilter. reflexivity.
Defined.

(** C7, as stated, fails when the filter is set to the empty string: the
    configuration holds a filter value, yet the requests carry no [filter]
    parameter. *)
Lemma read_drops_empty_filter :
  let d := Example.dataWithFilter (Some "") in
  exists d' sent,
    dataSourceGoogleComputeUsableSubnetworksRead
      Example.userAgentOk (Example.projectIs "p") Example.acceptAll 2 d
      (Example.configWith Example.twoPages)
    = Some ([], d', sent)
    /\ filterParam_spec d = Some ""
    /\ length sent = 2
    /\ Forall (fun q => reqParams q !! "filter" = None) sent
    /\ ~ Forall (fun q => reqParams q !! "filter" = filterParam_spec d) sent.
Proof.
  intros d. eexists _, _. split; [apply (read_twoPages (Some ""))|].
  split; [reflexivity|]. split; [reflexivity|]. split.
  - repeat constructor.
  - intros H. apply Forall_cons in H as [H _]. discriminate H.
Qed.

(** C7 on the server with two pages, with the filter ["name=foo"]. *)
Lemma read_applies_filter_witness :
  let d := Example.dataWithFilter (Some "name=foo") in
  exists d' sent,
    dataSourceGoogleComputeUsableSubnetworksRead
      Example.userAgentOk (Example.projectIs "p") Example.acceptAll 2 d
      (Example.configWith Example.twoPages)
    = Some ([], d', sent)
    /\ Forall (fun q => reqParams q !! "filter" = Some "name=foo") sent
    /\ exists rest,
         sent = {| reqUserAgent := "terraform"; reqProject := "p";
                   reqParams := {[ "filter" := "name=foo" ]} |} :: rest.
Proof.
  intros d. eexists _, _. split; [apply (read_twoPages (Some "name=foo"))|].
  destruct (read_applies_filter Example.userAgentOk (Example.projectIs "p") Example.acceptAll
              2 d (Example.configWith Example.twoPages) _ _ _
              (read_twoPages (Some "name=foo")))
    as (Hset & _ & Hfirst).
  split.
  - apply (Hset "name=foo"); [reflexivity | discriminate].
  - apply (Hfirst "terraform" "p"); reflexivity.
Defined.

(** C10 on the server with two pages: with the filter ["name=foo"], with no
    filter, and with the empty filter. *)
Lemma read_id_filter_agrees_with_request_witness :
  (exists d' sent,
      dataSourceGoogleComputeUsableSubnetworksRead
        Example.userAgentOk (Example.projectIs "p") Example.acceptAll 2
        (Example.dataWithFilter (Some "name=foo")) (Example.configWith Example.twoPages)
      = Some ([], d', sent)
      /\ Forall (fun q => reqParams q !! "filter" = Some "name=foo") sent
      /\ Id d' = "p-name=foo")
  /\ (exists d' sent,
        dataSourceGoogleComputeUsableSubnetworksRead
          Example.userAgentOk (Example.projectIs "p") Example.acceptAll 2
          (Example.dataWithFilter None) (Example.configWith Example.twoPages)
        = Some ([], d', sent)
        /\ Forall (fun q => reqParams q !! "filter" = None) sent
        /\ Id d' = "p-ALL")
  /\ (exists d' sent,
        dataSourceGoogleComputeUsableSubnetworksRead
          Example.userAgentOk (Example.projectIs "p") Example.acceptAll 2
          (Example.dataWithFilter (Some "")) (Example.configWith Example.twoPages)
        = Some ([], d', sent)
        /\ Forall (fun q => reqParams q !! "filter" = None) sent
        /\ Id d' = "p-ALL").
Proof.
  split; [|split].
  - eexists _, _. split; [apply (read_twoPages (Some "name=foo"))|].
    destruct (read_id_filter_agrees_with_request
                Example.userAgentOk (Example.projectIs "p") Example.acceptAll
                2 _ _ _ _ _ (read_twoPages (Some "name=foo")) eq_refl)
      as (project & Hproj & _ & _ & Hset & _).
    injection Hproj as <-.
    apply (Hset "name=foo"); [reflexivity | discriminate].
  - eexists _, _. split; [apply (read_twoPages None)|].
    destruct (read_id_filter_agrees_with_request
                Example.userAgentOk (Example.projectIs "p") Example.acceptAll
                2 _ _ _ _ _ (read_twoPages None) eq_refl)
      as (project & Hproj & _ & _ & _ & Hunset).
    injection Hproj as <-.
    apply Hunset. left. reflexivity.
  - eexists _, _. split; [apply (read_twoPages (Some ""))|].
    destruct (read_id_filter_agrees_with_request
                Example.userAgentOk (Example.projectIs "p") Example.acceptAll
                2 _ _ _ _ _ (read_twoPages (Some "")) eq_refl)
      as (project & Hproj & _ & _ & _ & Hunset).
    injection Hproj as <-.
    apply Hunset. right. reflexivity.
Defined.

(** ** The example template *)

Lemma template_segments :
  Template.scan false "" Template.template
  = Some [ Template.Text Template.textBeforeClusterName;
           Template.Output " ctx[:vars]['cluster_name'] ";
           Template.Text Template.textBeforeProject;
           Template.Output " ctx[:test_env_vars]['project'] ";
           Template.Text Template.textBeforeName;
           Template.Output " ctx[:vars]['name'] ";
           Template.Text Template.textAfterName ].
Proof. vm_compute. reflexivity. Qed.

Lemma evalOutput_lookup ctx :
  Template.evalOutput ctx " ctx[:vars]['cluster_name'] "
  = Some (default "" (Template.vars ctx !! "cluster_name"))
  /\ Template.evalOutput ctx " ctx[:test_env_vars]['project'] "
     = Some (default "" (Template.test_env_vars ctx !! "project"))
  /\ Template.evalOutput ctx " ctx[:vars]['name'] "
     = Some (default "" (Template.vars ctx !! "name")).
Proof. repeat split; reflexivity. Qed.

(** C8: the template is its fixed text with three tags in it, and rendering
    it in any context replaces the tags, and only them, by the context's
    [cluster_name], [project] and [name]; the text around them is copied
    unchanged.  With [cluster_name] ["c1"], [name] ["bp1"] and [project]
    ["proj"] the result is the template with its lines 3, 7 and 18 reading
    [name = "c1"], [workload_pool = "proj.svc.id.goog"] and
    [name = "bp1"], and every other line as in the template. *)
Theorem render_template_substitutes_three_tokens :
  forall ctx : Template.Ctx,
    let clusterName := default "" (Template.vars ctx !! "cluster_name") in
    let project := default "" (Template.test_env_vars ctx !! "project") in
    let name := default "" (Template.vars ctx !! "name") in
    Template.template
    = Template.textBeforeClusterName +:+ Template.tagClusterName
      +:+ Template.textBeforeProject +:+ Template.tagProject
      +:+ Template.textBeforeName +:+ Template.tagName
      +:+ Template.textAfterName
    /\ Template.render Template.template ctx
       = Some (Template.textBeforeClusterName +:+ clusterName
               +:+ Template.textBeforeProject +:+ project
               +:+ Template.textBeforeName +:+ name
               +:+ Template.textAfterName)
    /\ Template.render Template.template Template.exampleCtx
       = Some (Template.unlines
                 (<[2 := "  name               = " +:+ Template.q "c1"]>
                 (<[6 := "    workload_pool = " +:+ Template.q "proj.svc.id.goog"]>
                 (<[17 := "  name = " +:+ Template.q "bp1"]> Template.lines)))).
Proof.
  intros ctx clusterName project name. split; [vm_compute; reflexivity|]. split.
  - unfold Template.render. rewrite template_segments.
    destruct (evalOutput_lookup ctx) as (Hc & Hp & Hn).
    cbn [mbind option_bind mapM Template.renderSegment].
    rewrite Hc, Hp, Hn. cbn [mbind option_bind mret option_ret fmap option_fmap option_map
                             Template.concat].
    fold clusterName project name.
    reflexivity.
  - vm_compute. reflexivity.
Qed.

(** * Further properties *)

(** ** The reshaped values and the declared schema *)

Lemma generateTfSecondaryIpRange_conforms r key x :
  generateTfSecondaryIpRange r !! key = Some x ->
  exists sub, secondaryIpRangeSchema !! key = Some sub /\ Conforms sub x.
Proof.
  unfold generateTfSecondaryIpRange, secondaryIpRangeSchema. intros H.
  repeat (apply lookup_insert_Some in H as [[<- <-] | [? H]];
          [eexists; split; [by map_lookup | by constructor] |]).
  by rewrite lookup_empty in H.
Qed.

Lemma generateTfSecondaryIpRanges_conform ranges sch :
  Type_ sch = TypeList ->
  Elem sch = Some secondaryIpRangeSchema ->
  Conforms sch (VList (Slice.map VMap (generateTfSecondaryIpRanges ranges))).
Proof.
  intros Hty Helem. eapply Conforms_list; [done..|].
  rewrite generateTfSecondaryIpRanges_map. cbn [Slice.map Slice.elems].
  intros v Hv. apply in_map_iff in Hv as (m & <- & Hm).
  apply in_map_iff in Hm as (r & <- & _).
  eexists. split; [done|]. apply generateTfSecondaryIpRange_conforms.
Qed.

Lemma generateTfSubnetwork_key_conforms u key x :
  generateTfSubnetwork u !! key = Some x ->
  exists sub, subnetworkSchema !! key = Some sub /\ Conforms sub x.
Proof.
  unfold generateTfSubnetwork, subnetworkSchema. intros H.
  repeat (apply lookup_insert_Some in H as [[<- <-] | [? H]];
          [eexists; split;
             [by map_lookup
             | first [by constructor | by apply generateTfSecondaryIpRanges_conform]] |]).
  by rewrite lookup_empty in H.
Qed.

(** X1: the map built for a subnetwork has exactly the attributes the schema
    declares for an element of [subnetworks], each with a value of the
    declared shape, and likewise the map built for a secondary range against
    the element of [secondary_ip_ranges]. *)
Theorem reshaped_maps_match_schema :
  forall (u : UsableSubnetwork) (r : UsableSubnetworkSecondaryRange),
    dom (generateTfSubnetwork u) = dom subnetworkSchema
    /\ (forall key x, generateTfSubnetwork u !! key = Some x ->
          exists sub, subnetworkSchema !! key = Some sub /\ Conforms sub x)
    /\ dom (generateTfSecondaryIpRange r) = dom secondaryIpRangeSchema
    /\ (forall key x, generateTfSecondaryIpRange r !! key = Some x ->
          exists sub, secondaryIpRangeSchema !! key = Some sub /\ Conforms sub x).
Proof.
  intros u r. split; [|split; [|split]].
  - unfold generateTfSubnetwork, subnetworkSchema. by rewrite !dom_insert_L.
  - apply generateTfSubnetwork_key_conforms.
  - unfold generateTfSecondaryIpRange, secondaryIpRangeSchema. by rewrite !dom_insert_L.
  - apply generateTfSecondaryIpRange_conforms.
Qed.

(** X1 at the secondary ranges of a subnetwork with one range. *)
Lemma reshaped_maps_match_schema_witness :
  exists sub,
    subnetworkSchema !! "secondary_ip_ranges" = Some sub
    /\ Conforms sub
         (VList (Slice.Of [VMap (generateTfSecondaryIpRange
                                   {| RangeName := "pods"; SecIpCidrRange := "10.1.0.0/16" |})])).
Proof.
  destruct (reshaped_maps_match_schema Example.subnetA
              {| RangeName := "pods"; SecIpCidrRange := "10.1.0.0/16" |}) as (_ & H & _).
  apply (H "secondary_ip_ranges"). reflexivity.
Defined.

(** ** Reshaping loses nothing but the nil *)

Lemma generateTfSubnetwork_withEmptyForNil u :
  generateTfSubnetwork (withEmptyForNil u) = generateTfSubnetwork u.
Proof.
  unfold generateTfSubnetwork, withEmptyForNil.
  cbn [ExternalIpv6Prefix InternalIpv6Prefix IpCidrRange Ipv6AccessType Network Purpose Role
       SecondaryIpRanges StackType Subnetwork].
  by rewrite !generateTfSecondaryIpRanges_map.
Qed.

(** X2: two subnetworks have the same map exactly when they agree on every
    field, a nil list of secondary ranges counting as an empty one; two
    secondary ranges with the same map are the same range. *)
Theorem reshaping_injective :
  forall (u1 u2 : UsableSubnetwork) (r1 r2 : UsableSubnetworkSecondaryRange),
    (generateTfSubnetwork u1 = generateTfSubnetwork u2
     <-> withEmptyForNil u1 = withEmptyForNil u2)
    /\ (generateTfSecondaryIpRange r1 = generateTfSecondaryIpRange r2 -> r1 = r2).
Proof.
  intros u1 u2 r1 r2. split; [split|].
  - intros Heq. pose proof (recoverSubnetwork_generate u1) as H1.
    rewrite Heq, recoverSubnetwork_generate in H1. congruence.
  - intros Heq. rewrite <- (generateTfSubnetwork_withEmptyForNil u1), Heq.
    apply generateTfSubnetwork_withEmptyForNil.
  - intros Heq. pose proof (recoverSecondaryIpRange_generate r1) as H1.
    rewrite Heq, recoverSecondaryIpRange_generate in H1. congruence.
Qed.

(** X2 at two subnetworks that differ in the network only, and at the nil
    and the empty list of ranges. *)
Lemma reshaping_injective_witness :
  let mk := fun network ranges =>
    {| ExternalIpv6Prefix := ""; InternalIpv6Prefix := ""; IpCidrRange := "10.0.0.0/24";
       Ipv6AccessType := ""; Network := network; Purpose := "PRIVATE"; Role := "";
       SecondaryIpRanges := ranges; StackType := "IPV4_ONLY"; Subnetwork := "s" |} in
  generateTfSubnetwork (mk "n1" Slice.Nil) <> generateTfSubnetwork (mk "n2" Slice.Nil)
  /\ generateTfSubnetwork (mk "n1" Slice.Nil) = generateTfSubnetwork (mk "n1" (Slice.Of [])).
Proof.
  intros mk. split.
  - intros Heq.
    apply (reshaping_injective (mk "n1" Slice.Nil) (mk "n2" Slice.Nil)
             {| RangeName := ""; SecIpCidrRange := "" |}
             {| RangeName := ""; SecIpCidrRange := "" |}) in Heq.
    discriminate Heq.
  - apply (reshaping_injective (mk "n1" Slice.Nil) (mk "n1" (Slice.Of []))
             {| RangeName := ""; SecIpCidrRange := "" |}
             {| RangeName := ""; SecIpCidrRange := "" |}).
    reflexivity.
Defined.

(** ** What the ID tells apart *)

Lemma string_app_assoc (a b c : string) : (a +:+ b) +:+ c = a +:+ (b +:+ c).
Proof.
  induction a as [|x a IH]; [done|].
  change (String x ((a +:+ b) +:+ c) = String x (a +:+ (b +:+ c))). by rewrite IH.
Qed.

Lemma filterOrALL_set d f :
  Attributes d !! "filter" = Some f -> f <> "" -> filterOrALL d = f.
Proof. intros Hf Hne. unfold filterOrALL. rewrite Hf. by rewrite decide_False. Qed.

(** X3: for one project, two filters that are set and not empty give the
    same ID only if they are the same filter. *)
Theorem id_separates_filters :
  forall (p : string) (d1 d2 : ResourceData) (f1 f2 : string),
    Attributes d1 !! "filter" = Some f1 -> f1 <> "" ->
    Attributes d2 !! "filter" = Some f2 -> f2 <> "" ->
    computeUsableSubnetworksListId p d1 = computeUsableSubnetworksListId p d2 ->
    f1 = f2.
Proof.
  intros p d1 d2 f1 f2 Hf1 Hne1 Hf2 Hne2 Hid.
  rewrite !computeUsableSubnetworksListId_filterOrALL in Hid.
  rewrite (filterOrALL_set d1 f1), (filterOrALL_set d2 f2) in Hid by done.
  apply (inj (String.app p)) in Hid. by apply (inj (String.app "-")) in Hid.
Qed.

(** X3 at the filters ["name=foo"] and ["name=bar"]. *)
Lemma id_separates_filters_witness :
  computeUsableSubnetworksListId "p" (Example.dataWithFilter (Some "name=foo"))
  <> computeUsableSubnetworksListId "p" (Example.dataWithFilter (Some "name=bar")).
Proof.
  intros Hid.
  pose proof (id_separates_filters "p" (Example.dataWithFilter (Some "name=foo"))
                (Example.dataWithFilter (Some "name=bar")) "name=foo" "name=bar"
                eq_refl ltac:(discriminate) eq_refl ltac:(discriminate) Hid) as Heq.
  discriminate Heq.
Defined.

(** X4: a filter that is the text ["ALL"] gives the same ID as no filter. *)
Theorem id_of_filter_ALL_is_id_of_no_filter :
  forall (p : string) (d1 d2 : ResourceData),
    Attributes d1 !! "filter" = None ->
    Attributes d2 !! "filter" = Some "ALL" ->
    computeUsableSubnetworksListId p d1 = computeUsableSubnetworksListId p d2.
Proof.
  intros p d1 d2 H1 H2. rewrite !computeUsableSubnetworksListId_filterOrALL.
  unfold filterOrALL. by rewrite H1, H2.
Qed.

(** X4 at project ["p"]. *)
Lemma id_of_filter_ALL_is_id_of_no_filter_witness :
  computeUsableSubnetworksListId "p" (Example.dataWithFilter None)
  = computeUsableSubnetworksListId "p" (Example.dataWithFilter (Some "ALL")).
Proof.
  apply (id_of_filter_ALL_is_id_of_no_filter "p" (Example.dataWithFilter None)
           (Example.dataWithFilter (Some "ALL"))); reflexivity.
Defined.

(** X5: the ID does not tell where the project ends: project [p-f] with the
    filter [g] and project [p] with the filter [f-g] have the same ID. *)
Theorem id_dash_is_ambiguous :
  forall (p f g : string) (d1 d2 : ResourceData),
    Attributes d1 !! "filter" = Some g -> g <> "" ->
    Attributes d2 !! "filter" = Some (f +:+ "-" +:+ g) ->
    computeUsableSubnetworksListId (p +:+ "-" +:+ f) d1
    = computeUsableSubnetworksListId p d2.
Proof.
  intros p f g d1 d2 H1 Hg H2. rewrite !computeUsableSubnetworksListId_filterOrALL.
  rewrite (filterOrALL_set d1 g) by done.
  rewrite (filterOrALL_set d2 (f +:+ "-" +:+ g)); [|done|by destruct f].
  by rewrite !string_app_assoc.
Qed.

(** X5 at the projects ["team-prod"] and ["team"]. *)
Lemma id_dash_is_ambiguous_witness :
  computeUsableSubnetworksListId "team-prod" (Example.dataWithFilter (Some "name=foo"))
  = computeUsableSubnetworksListId "team" (Example.dataWithFilter (Some "prod-name=foo")).
Proof.
  apply (id_dash_is_ambiguous "team" "prod" "name=foo"
           (Example.dataWithFilter (Some "name=foo"))
           (Example.dataWithFilter (Some "prod-name=foo"))); [reflexivity|discriminate|reflexivity].
Defined.

(** ** The requests of a page exchange, one by one *)

Lemma pageRequests_pageToken c pages i q :
  pageRequests c pages !! (S i) = Some q ->
  reqParams q !! "pageToken" = NextPageToken <$> pages !! i.
Proof.
  revert c i. induction pages as [|x pages IH]; intros c i Hq; [done|].
  cbn [pageRequests] in Hq. rewrite lookup_cons in Hq. destruct i as [|j].
  - destruct pages as [|y pages]; [done|]. cbn in Hq. injection Hq as <-.
    cbn. by rewrite lookup_insert_eq.
  - cbn. by apply (IH _ _ Hq).
Qed.

Lemma reshapedItems_no_items pages :
  Forall (fun page => Slice.len (Items page) = 0) pages -> reshapedItems pages = [].
Proof.
  unfold reshapedItems. induction 1 as [|x pages Hx _ IH]; [done|].
  cbn [flat_map]. rewrite IH. unfold Slice.len in Hx.
  by destruct (Slice.elems (Items x)).
Qed.

Lemma reshapedItems_conform pages sch :
  Type_ sch = TypeList ->
  Elem sch = Some subnetworkSchema ->
  Conforms sch (VList (Slice.Of (List.map VMap (reshapedItems pages)))).
Proof.
  intros Hty Helem. eapply Conforms_list; [done..|]. cbn [Slice.elems].
  intros v Hv. apply in_map_iff in Hv as (m & <- & Hm).
  rewrite reshapedItems_map in Hm. apply in_map_iff in Hm as (u & <- & _).
  eexists. split; [done|]. apply generateTfSubnetwork_key_conforms.
Qed.

Lemma writeField_again d key value :
  writeField (writeField d key value) key value = writeField d key value.
Proof.
  unfold writeField. destruct value; cbn [Attributes Composite Id];
    by rewrite insert_insert_eq.
Qed.

Section ReadFurther.

Variable generateUserAgentString : ResourceData -> string -> error + string.
Variable getProject : ResourceData -> Config -> error + string.
Variable writeFieldError : string -> Value -> option error.

Local Abbreviation read :=
  (dataSourceGoogleComputeUsableSubnetworksRead generateUserAgentString getProject writeFieldError).

(** Every outcome of a read: an error with nothing written, the error of
    setting [project] with [subnetworks] written, or success. *)
Lemma read_outcomes fuel d meta diags d' sent :
  read fuel d meta = Some (diags, d', sent) ->
  (exists err, diags = FromErr err /\ d' = d)
  \/ (exists ua project pages,
        generateUserAgentString d (userAgent meta) = inr ua
        /\ getProject d meta = inr project
        /\ PageRun (listUsableRequest d meta ua project) pages None
        /\ length pages <= fuel
        /\ sent = pageRequests (listUsableRequest d meta ua project) pages
        /\ writeFieldError "subnetworks"
             (VList (Slice.Of (List.map VMap (reshapedItems pages)))) = None
        /\ ((exists err,
               writeFieldError "project" (VString project) = Some err
               /\ diags = FromErr (Errorf "error setting project: " err)
               /\ d' = writeField d "subnetworks"
                         (VList (Slice.Of (List.map VMap (reshapedItems pages)))))
            \/ (writeFieldError "project" (VString project) = None
                /\ diags = []
                /\ d' = SetId (writeField (writeField d "subnetworks"
                                 (VList (Slice.Of (List.map VMap (reshapedItems pages)))))
                                 "project" (VString project))
                              (project +:+ "-" +:+ filterOrALL d)))).
Proof.
  intros Hread.
  destruct (read_inv _ _ _ _ _ _ _ _ _ Hread)
    as [(err & _ & -> & -> & _) | [(ua & err & _ & _ & -> & -> & _) | Hpaged]]; [eauto..|].
  destruct Hpaged as (ua & project & pages & r & Hua & Hproj & Hrun & Hfuel & Hsent).
  rewrite length_runRequests in Hfuel. destruct r as [err|].
  { rewrite (read_failed_pages _ _ _ _ _ _ _ _ _ _ Hua Hproj Hrun) in Hread by lia.
    left. exists err. by simplify_eq. }
  rewrite (read_all_pages _ _ _ _ _ _ _ _ _ Hua Hproj Hrun) in Hread by lia.
  cbv zeta in Hread.
  destruct (writeFieldError "subnetworks" _) as [err|] eqn:Hset.
  { left. eexists. by simplify_eq. }
  right. exists ua, project, pages.
  split; [done|]. split; [done|]. split; [done|]. split; [lia|]. split; [done|]. split; [done|].
  destruct (writeFieldError "project" _) as [err|] eqn:Hset'.
  - left. exists err. by simplify_eq.
  - right. by simplify_eq.
Qed.

(** X6: when no page carries an item (the item lists are nil or empty), the
    read still succeeds: it stores an empty list, not a missing one, under
    [subnetworks] and sets the ID. *)
Theorem read_without_items_stores_empty_list :
  forall (fuel : nat) (d : ResourceData) (meta : Config) ua project pages,
    generateUserAgentString d (userAgent meta) = inr ua ->
    getProject d meta = inr project ->
    PageRun (listUsableRequest d meta ua project) pages None ->
    length pages <= fuel ->
    Forall (fun page => Slice.len (Items page) = 0) pages ->
    writeFieldError "subnetworks" (VList (Slice.Of [])) = None ->
    writeFieldError "project" (VString project) = None ->
    exists d' sent,
      read fuel d meta = Some ([], d', sent)
      /\ Composite d' !! "subnetworks" = Some (VList (Slice.Of []))
      /\ Id d' = computeUsableSubnetworksListId project d.
Proof.
  intros fuel d meta ua project pages Hua Hproj Hrun Hfuel Hempty Hset Hset'.
  eexists _, _. split.
  { rewrite (read_all_pages _ _ _ _ _ _ _ _ _ Hua Hproj Hrun Hfuel). cbv zeta.
    rewrite (reshapedItems_no_items _ Hempty). cbn [List.map].
    rewrite Hset, Hset'. reflexivity. }
  cbn [SetId Composite Id writeField]. rewrite lookup_insert_eq.
  by rewrite computeUsableSubnetworksListId_filterOrALL.
Qed.

(** X7: how the server cuts the items into pages does not matter.  Two
    exchanges for the same project that deliver the same items in the same
    order, in whatever pages, end in the same diagnostics and the same
    resource data. *)
Theorem read_ignores_page_boundaries :
  forall (fuel1 fuel2 : nat) (d : ResourceData) (meta1 meta2 : Config)
         ua1 ua2 project pages1 pages2,
    generateUserAgentString d (userAgent meta1) = inr ua1 ->
    generateUserAgentString d (userAgent meta2) = inr ua2 ->
    getProject d meta1 = inr project ->
    getProject d meta2 = inr project ->
    PageRun (listUsableRequest d meta1 ua1 project) pages1 None ->
    PageRun (listUsableRequest d meta2 ua2 project) pages2 None ->
    length pages1 <= fuel1 ->
    length pages2 <= fuel2 ->
    flat_map (fun page => Slice.elems (Items page)) pages1
    = flat_map (fun page => Slice.elems (Items page)) pages2 ->
    exists diags d' sent1 sent2,
      read fuel1 d meta1 = Some (diags, d', sent1)
      /\ read fuel2 d meta2 = Some (diags, d', sent2).
Proof.
  intros fuel1 fuel2 d meta1 meta2 ua1 ua2 project pages1 pages2
         Hua1 Hua2 Hproj1 Hproj2 Hrun1 Hrun2 Hfuel1 Hfuel2 Hitems.
  rewrite (read_all_pages _ _ _ _ _ _ _ _ _ Hua1 Hproj1 Hrun1 Hfuel1).
  rewrite (read_all_pages _ _ _ _ _ _ _ _ _ Hua2 Hproj2 Hrun2 Hfuel2).
  cbv zeta. rewrite (reshapedItems_map pages1), (reshapedItems_map pages2), Hitems.
  destruct (writeFieldError "subnetworks" _); [by eexists _, _, _, _|].
  destruct (writeFieldError "project" _); by eexists _, _, _, _.
Qed.

(** X8: reading again changes nothing.  A read that succeeded, run again on
    the resource data it left, against the same server and with the helpers
    answering as before, returns the same diagnostics, sends the same
    requests and leaves the resource data as it found it. *)
Theorem read_twice_is_read_once :
  forall (fuel : nat) (d : ResourceData) (meta : Config) diags d' sent,
    read fuel d meta = Some (diags, d', sent) ->
    HasError diags = false ->
    generateUserAgentString d' (userAgent meta) = generateUserAgentString d (userAgent meta) ->
    getProject d' meta = getProject d meta ->
    read fuel d' meta = Some (diags, d', sent).
Proof.
  intros fuel d meta diags d' sent Hread Hok Hua' Hproj'.
  destruct (read_outcomes _ _ _ _ _ _ Hread) as [(err & -> & _) | Hpaged]; [done|].
  destruct Hpaged as (ua & project & pages & Hua & Hproj & Hrun & Hfuel & -> & Hset & Hrest).
  destruct Hrest as [(err & _ & -> & _) | (Hset' & -> & Hd')]; [done|].
  assert (listUsableRequest d' meta ua project = listUsableRequest d meta ua project) as Hreq.
  { rewrite !listUsableRequest_params. unfold filterParam. subst d'.
    cbn [SetId Attributes writeField]. by rewrite lookup_insert_ne. }
  rewrite Hua in Hua'. rewrite Hproj in Hproj'. rewrite <- Hreq in Hrun.
  rewrite (read_all_pages _ _ _ _ _ _ _ _ _ Hua' Hproj' Hrun Hfuel). cbv zeta.
  rewrite Hset, Hset', Hreq. do 3 f_equal.
  assert (filterOrALL d' = filterOrALL d) as ->.
  { subst d'. unfold filterOrALL. cbn [SetId Attributes writeField].
    by rewrite lookup_insert_ne. }
  subst d'. unfold SetId, writeField. cbn [Attributes Composite Id].
  by rewrite !insert_insert_eq.
Qed.

(** X9: a read that gets all its pages sends exactly one request per page.
    Each request names the resolved project and carries the filter the lookup
    decided on; the first carries no page token, and each later one carries
    the [NextPageToken] of the page before it. *)
Theorem read_one_request_per_page :
  forall (fuel : nat) (d : ResourceData) (meta : Config) ua project pages,
    generateUserAgentString d (userAgent meta) = inr ua ->
    getProject d meta = inr project ->
    PageRun (listUsableRequest d meta ua project) pages None ->
    length pages <= fuel ->
    exists diags d' sent,
      read fuel d meta = Some (diags, d', sent)
      /\ length sent = length pages
      /\ forall (i : nat) (q : Request),
           sent !! i = Some q ->
           reqUserAgent q = UserAgent (NewComputeClient meta ua)
           /\ reqProject q = project
           /\ reqParams q !! "filter" = filterParam d
           /\ reqParams q !! "pageToken"
              = match i with
                | O => None
                | S j => NextPageToken <$> pages !! j
                end.
Proof.
  intros fuel d meta ua project pages Hua Hproj Hrun Hfuel.
  assert (exists diags d',
            read fuel d meta
            = Some (diags, d', pageRequests (listUsableRequest d meta ua project) pages))
    as (diags & d' & Hread).
  { rewrite (read_all_pages _ _ _ _ _ _ _ _ _ Hua Hproj Hrun Hfuel). cbv zeta.
    destruct (writeFieldError "subnetworks" _); [by eexists _, _|].
    destruct (writeFieldError "project" _); by eexists _, _. }
  exists diags, d', (pageRequests (listUsableRequest d meta ua project) pages).
  split; [done|]. split; [apply length_pageRequests|].
  intros i q Hq.
  pose proof (runRequests_sameButToken (listUsableRequest d meta ua project) pages None) as Hall.
  cbn [runRequests] in Hall. rewrite Forall_lookup in Hall.
  destruct (Hall i q Hq) as (Hagent & Hp & Hparams).
  rewrite Hagent, Hp, (Hparams "filter") by done.
  rewrite listUsableRequest_filter, listUsableRequest_params.
  split; [done|]. split; [done|]. split; [done|]. destruct i as [|j].
  - destruct pages as [|x pages]; [done|]. cbn in Hq. injection Hq as <-.
    rewrite listUsableRequest_params. cbn.
    destruct (filterParam d); [by rewrite lookup_singleton_ne|done].
  - by apply (pageRequests_pageToken _ _ _ _ Hq).
Qed.


(** X11: whatever the outcome, a read changes only attributes that the
    schema declares as computed, and what it stores has the shape the schema
    declares: a string for [project], a list of subnetwork maps for
    [subnetworks].  The [filter] attribute, which is not computed, is never
    changed. *)
Theorem read_changes_only_computed_attributes :
  forall (fuel : nat) (d : ResourceData) (meta : Config) diags d' sent,
    read fuel d meta = Some (diags, d', sent) ->
    (forall key,
        Attributes d' !! key <> Attributes d !! key ->
        exists sch,
          Schema_ (dataSourceGoogleComputeUsableSubnetworks
                     generateUserAgentString getProject writeFieldError) !! key = Some sch
          /\ Computed sch = true
          /\ Type_ sch = TypeString)
    /\ (forall key,
          Composite d' !! key <> Composite d !! key ->
          exists sch v,
            Schema_ (dataSourceGoogleComputeUsableSubnetworks
                       generateUserAgentString getProject writeFieldError) !! key = Some sch
            /\ Computed sch = true
            /\ Composite d' !! key = Some v
            /\ Conforms sch v)
    /\ Attributes d' !! "filter" = Attributes d !! "filter".
Proof.
  intros fuel d meta diags d' sent Hread.
  assert (forall V key,
            Composite (writeField d "subnetworks" V) !! key <> Composite d !! key ->
            key = "subnetworks") as Hcomp.
  { intros V key Hne. destruct (decide (key = "subnetworks")) as [|Hkey]; [done|].
    exfalso. apply Hne. destruct V; cbn [writeField Composite]; by rewrite ?lookup_insert_ne. }
  assert (forall pages,
            exists sch v,
              dataSourceSchema !! "subnetworks" = Some sch
              /\ Computed sch = true
              /\ Composite (writeField d "subnetworks"
                              (VList (Slice.Of (List.map VMap (reshapedItems pages)))))
                   !! "subnetworks" = Some v
              /\ Conforms sch v) as Hsub.
  { intros pages. eexists _, _. split; [reflexivity|]. split; [reflexivity|]. split.
    - cbn [writeField Composite]. by rewrite lookup_insert_eq.
    - by apply reshapedItems_conform. }
  cbn [Schema_ dataSourceGoogleComputeUsableSubnetworks].
  destruct (read_outcomes _ _ _ _ _ _ Hread) as [(err & -> & ->) | Hpaged]; [done|].
  destruct Hpaged as (ua & project & pages & _ & _ & _ & _ & _ & _ & Hrest).
  destruct Hrest as [(err & _ & _ & ->) | (_ & _ & ->)].
  - split; [done|]. split; [|done].
    intros key Hne. rewrite (Hcomp _ _ Hne). apply Hsub.
  - split; [|split].
    + intros key Hne. cbn [SetId writeField Attributes] in Hne.
      destruct (decide (key = "project")) as [->|Hkey].
      * eexists. split; [reflexivity|]. by split.
      * by rewrite lookup_insert_ne in Hne.
    + intros key Hne. change (Composite (writeField d "subnetworks"
                                (VList (Slice.Of (List.map VMap (reshapedItems pages)))))
                              !! key <> Composite d !! key) in Hne.
      rewrite (Hcomp _ _ Hne). apply Hsub.
    + cbn [SetId writeField Attributes]. by rewrite lookup_insert_ne.
Qed.

(** X12: the values the read stores always have the shape the schema
    declares, so a field writer that accepts every value of the declared
    shape never makes the read fail: once all pages are delivered the read
    succeeds and sets the ID. *)
Theorem read_succeeds_under_schema_writer :
  forall (fuel : nat) (d : ResourceData) (meta : Config) ua project pages,
    (forall key sch v,
        Schema_ (dataSourceGoogleComputeUsableSubnetworks
                   generateUserAgentString getProject writeFieldError) !! key = Some sch ->
        Conforms sch v ->
        writeFieldError key v = None) ->
    generateUserAgentString d (userAgent meta) = inr ua ->
    getProject d meta = inr project ->
    PageRun (listUsableRequest d meta ua project) pages None ->
    length pages <= fuel ->
    exists d' sent,
      read fuel d meta = Some ([], d', sent)
      /\ Id d' = computeUsableSubnetworksListId project d.
Proof.
  intros fuel d meta ua project pages Hwriter Hua Hproj Hrun Hfuel.
  cbn [Schema_ dataSourceGoogleComputeUsableSubnetworks] in Hwriter.
  eexists _, _. split.
  - rewrite (read_all_pages _ _ _ _ _ _ _ _ _ Hua Hproj Hrun Hfuel). cbv zeta.
    rewrite (Hwriter "subnetworks" _ _ eq_refl) by (by apply reshapedItems_conform).
    rewrite (Hwriter "project" _ _ eq_refl) by (by constructor).
    reflexivity.
  - cbn [SetId Id]. by rewrite computeUsableSubnetworksListId_filterOrALL.
Qed.

End ReadFurther.

(** ** The further properties on the example servers *)

Lemma onePage_run filter :
  PageRun (listUsableRequest (Example.dataWithFilter filter)
             (Example.configWith Example2.onePage) "terraform" "p")
          [ {| Items := Slice.Of [Example.subnetA; Example.subnetB; Example.subnetC];
               NextPageToken := "" |} ] None.
Proof. rewrite listUsableRequest_params. apply PageRun_last; reflexivity. Qed.

Lemma noItems_run filter :
  PageRun (listUsableRequest (Example.dataWithFilter filter)
             (Example.configWith Example2.noItems) "terraform" "p")
          [ {| Items := Slice.Nil; NextPageToken := "next" |};
            {| Items := Slice.Of []; NextPageToken := "" |} ] None.
Proof.
  rewrite listUsableRequest_params.
  eapply PageRun_next; [|discriminate|eapply PageRun_last; [|reflexivity]].
  - unfold Do, Example2.noItems. cbn.
    destruct (filterParam _); [by rewrite lookup_singleton_ne|done].
  - unfold Do, Example2.noItems. cbn. by rewrite lookup_insert_eq.
Qed.

(** X6 on the server whose two pages carry no item. *)
Lemma read_without_items_stores_empty_list_witness :
  exists d' sent,
    dataSourceGoogleComputeUsableSubnetworksRead
      Example.userAgentOk (Example.projectIs "p") Example.acceptAll 2
      (Example.dataWithFilter None) (Example.configWith Example2.noItems)
    = Some ([], d', sent)
    /\ Composite d' !! "subnetworks" = Some (VList (Slice.Of []))
    /\ Id d' = "p-ALL".
Proof.
  apply (read_without_items_stores_empty_list
           Example.userAgentOk (Example.projectIs "p") Example.acceptAll 2
           (Example.dataWithFilter None) (Example.configWith Example2.noItems)
           "terraform" "p"
           [ {| Items := Slice.Nil; NextPageToken := "next" |};
             {| Items := Slice.Of []; NextPageToken := "" |} ]).
  - reflexivity.
  - reflexivity.
  - apply noItems_run.
  - cbn. lia.
  - repeat constructor.
  - reflexivity.
  - reflexivity.
Defined.

(** X7 on the same three subnetworks served in two pages and in one. *)
Lemma read_ignores_page_boundaries_witness :
  exists diags d' sent1 sent2,
    dataSourceGoogleComputeUsableSubnetworksRead
      Example.userAgentOk (Example.projectIs "p") Example.acceptAll 2
      (Example.dataWithFilter None) (Example.configWith Example.twoPages)
    = Some (diags, d', sent1)
    /\ dataSourceGoogleComputeUsableSubnetworksRead
         Example.userAgentOk (Example.projectIs "p") Example.acceptAll 1
         (Example.dataWithFilter None) (Example.configWith Example2.onePage)
       = Some (diags, d', sent2).
Proof.
  apply (read_ignores_page_boundaries
           Example.userAgentOk (Example.projectIs "p") Example.acceptAll 2 1
           (Example.dataWithFilter None)
           (Example.configWith Example.twoPages) (Example.configWith Example2.onePage)
           "terraform" "terraform" "p"
           [Example.page1; Example.page2]
           [ {| Items := Slice.Of [Example.subnetA; Example.subnetB; Example.subnetC];
                NextPageToken := "" |} ]).
  - reflexivity.
  - reflexivity.
  - reflexivity.
  - reflexivity.
  - apply twoPages_run.
  - apply onePage_run.
  - cbn. lia.
  - cbn. lia.
  - reflexivity.
Defined.

(** X8 on the server with two pages: the second read returns what the first
    did. *)
Lemma read_twice_is_read_once_witness :
  exists d' sent,
    dataSourceGoogleComputeUsableSubnetworksRead
      Example.userAgentOk (Example.projectIs "p") Example.acceptAll 2
      (Example.dataWithFilter (Some "name=foo")) (Example.configWith Example.twoPages)
    = Some ([], d', sent)
    /\ dataSourceGoogleComputeUsableSubnetworksRead
         Example.userAgentOk (Example.projectIs "p") Example.acceptAll 2
         d' (Example.configWith Example.twoPages)
       = Some ([], d', sent).
Proof.
  eexists _, _. split; [apply (read_twoPages (Some "name=foo"))|].
  apply (read_twice_is_read_once
           Example.userAgentOk (Example.projectIs "p") Example.acceptAll 2
           (Example.dataWithFilter (Some "name=foo")) (Example.configWith Example.twoPages)).
  - apply (read_twoPages (Some "name=foo")).
  - reflexivity.
  - reflexivity.
  - reflexivity.
Defined.

(** X9 on the server with two pages: two requests, the second with the
    token of the first page. *)
Lemma read_one_request_per_page_witness :
  exists diags d' sent,
    dataSourceGoogleComputeUsableSubnetworksRead
      Example.userAgentOk (Example.projectIs "p") Example.acceptAll 2
      (Example.dataWithFilter (Some "name=foo")) (Example.configWith Example.twoPages)
    = Some (diags, d', sent)
    /\ length sent = 2
    /\ forall (i : nat) (q : Request),
         sent !! i = Some q ->
         reqUserAgent q = "terraform"
         /\ reqProject q = "p"
         /\ reqParams q !! "filter" = Some "name=foo"
         /\ reqParams q !! "pageToken"
            = match i with
              | O => None
              | S j => NextPageToken <$> [Example.page1; Example.page2] !! j
              end.
Proof.
  apply (read_one_request_per_page
           Example.userAgentOk (Example.projectIs "p") Example.acceptAll 2
           (Example.dataWithFilter (Some "name=foo")) (Example.configWith Example.twoPages)
           "terraform" "p" [Example.page1; Example.page2]).
  - reflexivity.
  - reflexivity.
  - apply twoPages_run.
  - cbn. lia.
Defined.



(** X11 on the server with two pages: the filter stays, and [project] is a
    computed attribute. *)
Lemma read_changes_only_computed_attributes_witness :
  exists d' sent,
    dataSourceGoogleComputeUsableSubnetworksRead
      Example.userAgentOk (Example.projectIs "p") Example.acceptAll 2
      (Example.dataWithFilter (Some "name=foo")) (Example.configWith Example.twoPages)
    = Some ([], d', sent)
    /\ Attributes d' !! "filter" = Some "name=foo"
    /\ exists sch,
         dataSourceSchema !! "project" = Some sch /\ Computed sch = true /\ Type_ sch = TypeString.
Proof.
  eexists _, _. split; [apply (read_twoPages (Some "name=foo"))|].
  destruct (read_changes_only_computed_attributes
              Example.userAgentOk (Example.projectIs "p") Example.acceptAll 2
              (Example.dataWithFilter (Some "name=foo")) (Example.configWith Example.twoPages)
              _ _ _ (read_twoPages (Some "name=foo")))
    as (Hattrs & _ & Hfilter).
  split; [rewrite Hfilter; reflexivity|].
  apply (Hattrs "project"). discriminate.
Defined.

(** X12 on the server with two pages, with a writer that accepts every
    value. *)
Lemma read_succeeds_under_schema_writer_witness :
  exists d' sent,
    dataSourceGoogleComputeUsableSubnetworksRead
      Example.userAgentOk (Example.projectIs "p") Example.acceptAll 2
      (Example.dataWithFilter None) (Example.configWith Example.twoPages)
    = Some ([], d', sent)
    /\ Id d' = "p-ALL".
Proof.
  apply (read_succeeds_under_schema_writer
           Example.userAgentOk (Example.projectIs "p") Example.acceptAll 2
           (Example.dataWithFilter None) (Example.configWith Example.twoPages)
           "terraform" "p" [Example.page1; Example.page2]).
  - intros key sch v _ _. reflexivity.
  - reflexivity.
  - reflexivity.
  - apply twoPages_run.
  - cbn. lia.
Defined.
